(** * dolma_batch_process: a shallow embedding of the batch ETL step

    The development follows [src/dolma_batch_process.py]: the domain
    resolver [extract_domain_udf], the driver [main] and the publisher
    [upload_to_hf].  Python strings are Rocq strings of 8-bit characters,
    [None] is [option], exceptions are values of an error monad over an
    explicit world (file system, remote hub, log). *)

From Stdlib Require Import ZArith Lia Bool List Ascii String DecimalString.
From stdpp Require Import base option list gmap strings.

Local Open Scope string_scope.
Local Open Scope list_scope.

(** ** Python string operations used by the program *)

Module PyStr.

(** [c.lower()] on one character: only [A]..[Z] change. *)
Definition lower_ascii (c : ascii) : ascii :=
  let n := nat_of_ascii c in
  if (65 <=? n)%nat && (n <=? 90)%nat then ascii_of_nat (n + 32) else c.

(** [s.lower()]. *)
Fixpoint lower (s : string) : string :=
  match s with
  | EmptyString => EmptyString
  | String c r => String (lower_ascii c) (lower r)
  end.

(** [sep.join(parts)]. *)
Fixpoint join (sep : string) (parts : list string) : string :=
  match parts with
  | [] => ""
  | [p] => p
  | p :: rest => p +:+ sep +:+ join sep rest
  end.

(** [s.startswith(p)]. *)
Fixpoint startswith (p s : string) : bool :=
  match p, s with
  | EmptyString, _ => true
  | String a p', String b s' => if Ascii.eqb a b then startswith p' s' else false
  | String _ _, EmptyString => false
  end.

(** [c in s] for a character [c]. *)
Fixpoint contains (c : ascii) (s : string) : bool :=
  match s with
  | EmptyString => false
  | String a r => Ascii.eqb a c || contains c r
  end.

(** [s.endswith(c)] for a character [c]. *)
Fixpoint endswith (c : ascii) (s : string) : bool :=
  match s with
  | EmptyString => false
  | String a EmptyString => Ascii.eqb a c
  | String _ r => endswith c r
  end.

(** [s.replace(old, new)] for a non-empty [old]: occurrences are replaced
    from the left and do not overlap.  [skip] counts the characters of
    the occurrence just replaced that are still to be passed over. *)
Fixpoint replace_from (old new : string) (skip : nat) (s : string) : string :=
  match s with
  | EmptyString => EmptyString
  | String c r =>
      match skip with
      | S k => replace_from old new k r
      | O =>
          if startswith old s
          then new +:+ replace_from old new (String.length old - 1) r
          else String c (replace_from old new 0 r)
      end
  end.

Definition replace (old new s : string) : string :=
  match old with
  | EmptyString => s
  | _ => replace_from old new 0 s
  end.

(** [s.lstrip(...)], [s.rstrip(...)] and [s.strip(...)]: the characters to
    strip are given by a predicate. *)
Fixpoint lstrip (p : ascii -> bool) (s : string) : string :=
  match s with
  | String a r => if p a then lstrip p r else s
  | EmptyString => EmptyString
  end.

Fixpoint rstrip (p : ascii -> bool) (s : string) : string :=
  match s with
  | EmptyString => EmptyString
  | String a r =>
      match rstrip p r with
      | EmptyString => if p a then EmptyString else String a EmptyString
      | r' => String a r'
      end
  end.

Definition strip (p : ascii -> bool) (s : string) : string := rstrip p (lstrip p s).

(** [s.strip(c)] and [s.rstrip(c)] for a one-character argument. *)
Definition strip_char (c : ascii) : string -> string := strip (Ascii.eqb c).
Definition rstrip_char (c : ascii) : string -> string := rstrip (Ascii.eqb c).

(** The characters [s.strip()] removes, among the 8-bit ones. *)
Definition is_space (c : ascii) : bool :=
  let n := nat_of_ascii c in
  ((9 <=? n)%nat && (n <=? 13)%nat) || ((28 <=? n)%nat && (n <=? 32)%nat).

(** [s[:n]] and [s[n:]]. *)
Fixpoint take (n : nat) (s : string) : string :=
  match n, s with
  | S n', String c r => String c (take n' r)
  | _, _ => EmptyString
  end.

Fixpoint drop (n : nat) (s : string) : string :=
  match n, s with
  | O, _ => s
  | S n', String _ r => drop n' r
  | S _, EmptyString => EmptyString
  end.

(** [s.find(p)]: the first index where [p] occurs, [None] for -1. *)
Fixpoint find (p s : string) : option nat :=
  if startswith p s then Some O
  else match s with
       | EmptyString => None
       | String _ r => option_map S (find p r)
       end.

(** [s.partition(c)[0]]: what precedes the first [c]; all of [s] when
    there is none. *)
Fixpoint before (c : ascii) (s : string) : string :=
  match s with
  | EmptyString => EmptyString
  | String a r => if Ascii.eqb a c then EmptyString else String a (before c r)
  end.

(** [s.rpartition(c)[-1]]: what follows the last [c]; all of [s] when
    there is none. *)
Fixpoint after_last (c : ascii) (s : string) : string :=
  match s with
  | EmptyString => EmptyString
  | String a r =>
      if contains c r then after_last c r
      else if Ascii.eqb a c then r else s
  end.

(** [s.split(c)]: never empty; [n] separators give [n + 1] pieces. *)
Fixpoint split (c : ascii) (s : string) : list string :=
  match s with
  | EmptyString => [EmptyString]
  | String a r =>
      if Ascii.eqb a c then EmptyString :: split c r
      else match split c r with
           | piece :: pieces => String a piece :: pieces
           | [] => [String a EmptyString]
           end
  end.

(** [all(p(c) for c in s)]. *)
Fixpoint all (p : ascii -> bool) (s : string) : bool :=
  match s with
  | EmptyString => true
  | String a r => p a && all p r
  end.

(** Truthiness of a string: the empty string is falsy. *)
Definition truthy (s : string) : bool :=
  match s with EmptyString => false | _ => true end.

(** [str(n)] for an integer. *)
Definition of_Z (n : Z) : string := NilZero.string_of_int (Z.to_int n).

End PyStr.

(** ** Exceptions

    [except Exception] catches the subclasses of [Exception]; [SystemExit],
    which [argparse] raises on a bad command line, is not one of them. *)

Inductive Exception : Type :=
| AttributeError (attr : string)
| TypeError (msg : string)
| FileNotFoundError (path : string)
| FileExistsError (path : string)
| LibraryError (origin msg : string).

Inductive BaseException : Type :=
| Exc (e : Exception)
| SystemExit (code : Z).

(** [str(e)], as interpolated into the log messages. *)
Definition str_of_exception (e : Exception) : string :=
  match e with
  | AttributeError a => "'Namespace' object has no attribute '" +:+ a +:+ "'"
  | TypeError m => m
  | FileNotFoundError p => "[Errno 2] No such file or directory: '" +:+ p +:+ "'"
  | FileExistsError p => "[Errno 17] File exists: '" +:+ p +:+ "'"
  | LibraryError _ m => m
  end.

(** ** Data model *)

(** A Python value as it occurs in the parsed arguments and in the cells of
    the manifest data frame. *)
Inductive pyval : Type :=
| PNone
| PStr (s : string)
| PInt (n : Z).

(** [str(v)], as an f-string interpolates it. *)
Definition str_of_pyval (v : pyval) : string :=
  match v with
  | PNone => "None"
  | PStr s => s
  | PInt n => PyStr.of_Z n
  end.

(** The namespace [parser.parse_args()] returns: one attribute per
    [add_argument] call of [main], and no other. *)
Record Namespace : Type := {
  manifest_file : string;
  batch_num : Z;
  hf_username : string;
  hf_base_dataset_name : string;
  hf_variant : option string;
  output_dir : string
}.

(** [vars(args)]: the attribute dictionary of the namespace. *)
Definition ns_vars (args : Namespace) : gmap string pyval :=
  <["manifest_file" := PStr (manifest_file args)]>
  (<["batch_num" := PInt (batch_num args)]>
  (<["hf_username" := PStr (hf_username args)]>
  (<["hf_base_dataset_name" := PStr (hf_base_dataset_name args)]>
  (<["hf_variant" := match hf_variant args with Some v => PStr v | None => PNone end]>
  (<["output_dir" := PStr (output_dir args)]> ∅))))).

(** One line of an input file, as far as the query looks into it:
    [metadata] is absent when the record has no such object, [url] when
    the object has no such field. *)
Record Metadata : Type := { url : option string }.
Record JSONRecord : Type := { metadata : option Metadata }.

(** One row of the result set; both columns are nullable in the engine. *)
Abbreviation ExtractedRow := (option string * option string)%type.

(** What a file holds.  The manifest is text, the inputs are compressed
    JSON lines, the output is a columnar file (possibly cut short by a
    failed write). *)
Inductive FileContent : Type :=
| Text (body : string)
| GzJsonLines (records : list JSONRecord)
| Parquet (rows : list ExtractedRow) (complete : bool).

(** The remote hub keeps, for each repository identifier, the files
    committed to it. *)
Record Commit : Type := { commit_path : string; commit_message : string; commit_file : FileContent }.

Inductive Level : Type := DEBUG | INFO | ERROR.

(** The calls that leave the process, in the order they are made;
    [EvConnect] records the call of [duckdb.connect()], whether or not it
    returns. *)
Inductive Event : Type :=
| EvMakedirs (path : string)
| EvRemove (path : string)
| EvConnect
| EvClose
| EvReadCsv (path : string)
| EvReadJson (files : string)
| EvCopyTo (path : string)
| EvCreateRepo (repo_id : string)
| EvUploadFile (local_path path_in_repo repo_id : string).

Record World : Type := {
  fs : gmap string FileContent;
  hub : gmap string (list Commit);
  logs : list (Level * string);
  trace : list Event
}.

(** ** The error-and-state monad of the program *)

Inductive result (A : Type) : Type :=
| Ok (a : A)
| Raise (e : BaseException).
Arguments Ok {A} a.
Arguments Raise {A} e.

Definition M (A : Type) : Type := World -> result A * World.

Definition ret {A} (a : A) : M A := fun w => (Ok a, w).

Definition bind {A B} (m : M A) (k : A -> M B) : M B :=
  fun w => match m w with
           | (Ok a, w') => k a w'
           | (Raise e, w') => (Raise e, w')
           end.

Definition raise {A} (e : BaseException) : M A := fun w => (Raise e, w).

Definition lift {A} (r : result A) : M A := fun w => (r, w).

Notation "'let!' x ':=' m 'in' k" := (bind m (fun x => k))
  (at level 10, x name, m at level 100, k at level 200).
Notation "m ';;;' k" := (bind m (fun _ => k))
  (at level 100, k at level 200, right associativity).

(** [try: body  except Exception as e: handler e]. *)
Definition try_except {A} (body : M A) (handler : Exception -> M A) : M A :=
  fun w => match body w with
           | (Raise (Exc e), w') => handler e w'
           | other => other
           end.

(** [try: body  finally: cleanup]: the cleanup runs on every path; the
    outcome of the body stands unless the cleanup itself raises. *)
Definition try_finally {A} (body : M A) (cleanup : M unit) : M A :=
  fun w => let (r, w') := body w in
           match cleanup w' with
           | (Ok _, w'') => (r, w'')
           | (Raise e, w'') => (Raise e, w'')
           end.

(** ** Module-level helpers: logging and [os] *)

Definition emit (ev : Event) : M unit :=
  fun w => (Ok tt, {| fs := fs w; hub := hub w; logs := logs w;
                      trace := trace w ++ [ev] |}).

Definition set_fs (f : gmap string FileContent) : M unit :=
  fun w => (Ok tt, {| fs := f; hub := hub w; logs := logs w;
                      trace := trace w |}).

Definition set_hub (h : gmap string (list Commit)) : M unit :=
  fun w => (Ok tt, {| fs := fs w; hub := h; logs := logs w;
                      trace := trace w |}).

Definition get_world : M World := fun w => (Ok w, w).

(** [logging.basicConfig(level=logging.INFO)]: records below [INFO] are
    dropped, the others are appended to the log. *)
Definition level_enabled (l : Level) : bool :=
  match l with DEBUG => false | _ => true end.

Definition logger_log (l : Level) (msg : string) : M unit :=
  fun w => (Ok tt,
            if level_enabled l
            then {| fs := fs w; hub := hub w; logs := logs w ++ [(l, msg)];
                    trace := trace w |}
            else w).

Definition logger_info := logger_log INFO.
Definition logger_error := logger_log ERROR.
Definition logger_debug := logger_log DEBUG.

(** [os.path.exists(path)]. *)
Definition os_path_exists (path : string) : M bool :=
  fun w => (Ok (bool_decide (is_Some (fs w !! path))), w).

(** [os.remove(path)]. *)
Definition os_remove (path : string) : M unit :=
  emit (EvRemove path);;;
  let! w := get_world in
  match fs w !! path with
  | Some _ => set_fs (delete path (fs w))
  | None => raise (Exc (FileNotFoundError path))
  end.

(** [os.makedirs(path, exist_ok=True)]: directories are implicit in the
    flat name space of [fs]; the call fails on the empty path and when a
    file has that name. *)
Definition os_makedirs (path : string) : M unit :=
  emit (EvMakedirs path);;;
  let! w := get_world in
  match path, fs w !! path with
  | EmptyString, _ => raise (Exc (FileNotFoundError path))
  | _, Some _ => raise (Exc (FileExistsError path))
  | _, None => ret tt
  end.

(** [os.path.join(a, b)]. *)
Definition os_path_join (a b : string) : string :=
  if PyStr.startswith "/" b then b
  else match a with
       | EmptyString => b
       | _ => if PyStr.endswith "/" a then a +:+ b else a +:+ "/" +:+ b
       end.

(** [os.path.basename(p)]: what follows the last slash. *)
Definition os_path_basename (p : string) : string := PyStr.after_last "/" p.

(** Attribute access [args.name] through the attribute dictionary. *)
Definition getattr (args : Namespace) (name : string) : M pyval :=
  match ns_vars args !! name with
  | Some v => ret v
  | None => raise (Exc (AttributeError name))
  end.

(** ** The libraries the program calls

    [tldextract], [argparse], [pandas], [duckdb] and [huggingface_hub] are
    not part of the repository.  The program is modelled over any
    behaviour of theirs that has the right shape: what a call returns or
    raises, and which part of the world it may change. *)

Module tldextract.
(** The named tuple [tldextract.extract] returns. *)
Record ExtractResult : Type := {
  subdomain : string;
  domain : string;
  suffix : string
}.

(** A model of the library's algorithm, used where a claim depends on what
    the library computes.  The public suffix list is a trie keyed by
    labels from the right; the wildcard rule is the key [*], an exception
    to it the key [!label]. *)
#[local] Unset Elimination Schemes.
Inductive Trie : Type :=
| Node (is_end : bool) (matches : list (string * Trie)).

#[local] Set Elimination Schemes.

Definition trie_end (t : Trie) : bool := let (e, _) := t in e.
Definition trie_matches (t : Trie) : list (string * Trie) := let (_, m) := t in m.

Fixpoint trie_get (key : string) (m : list (string * Trie)) : option Trie :=
  match m with
  | [] => None
  | (k, t) :: rest => if String.eqb k key then Some t else trie_get key rest
  end.

(** [node.matches.setdefault(key, Trie())] followed by an update of the child. *)
Fixpoint trie_update (key : string) (f : Trie -> Trie) (m : list (string * Trie))
    : list (string * Trie) :=
  match m with
  | [] => [(key, f (Node false []))]
  | (k, t) :: rest =>
      if String.eqb k key then (k, f t) :: rest
      else (k, t) :: trie_update key f rest
  end.

(** [Trie.add_suffix], on the labels of the rule from the right. *)
Fixpoint add_suffix (rev_labels : list string) (t : Trie) : Trie :=
  match rev_labels with
  | [] => Node true (trie_matches t)
  | l :: rest => Node (trie_end t) (trie_update l (add_suffix rest) (trie_matches t))
  end.

(** [Trie.create]. *)
Definition trie_create (rules : list string) : Trie :=
  fold_left (fun t rule => add_suffix (rev (PyStr.split "." rule)) t) rules (Node false []).

Definition scheme_char (c : ascii) : bool :=
  let n := nat_of_ascii c in
  ((97 <=? n)%nat && (n <=? 122)%nat) || ((65 <=? n)%nat && (n <=? 90)%nat)
  || ((48 <=? n)%nat && (n <=? 57)%nat)
  || Ascii.eqb c "+" || Ascii.eqb c "-" || Ascii.eqb c ".".

(** [_schemeless_url]: drop a leading [scheme://] or [//]. *)
Definition schemeless_url (u : string) : string :=
  match PyStr.find "//" u with
  | None => u
  | Some O => PyStr.drop 2 u
  | Some k =>
      if (k <? 2)%nat
         || negb (String.eqb (PyStr.take 1 (PyStr.drop (k - 1) u)) ":")
         || negb (PyStr.all scheme_char (PyStr.take (k - 1) u))
      then u
      else PyStr.drop (k + 2) u
  end.

(** [lenient_netloc]: the host part of the URL. *)
Definition lenient_netloc (u : string) : string :=
  let after_userinfo :=
    PyStr.after_last "@"
      (PyStr.before "#" (PyStr.before "?" (PyStr.before "/" (schemeless_url u)))) in
  let hostname :=
    PyStr.rstrip_char "." (PyStr.strip PyStr.is_space (PyStr.before ":" after_userinfo)) in
  if PyStr.startswith "[" after_userinfo && PyStr.contains "]" after_userinfo
  then PyStr.before "]" after_userinfo +:+ "]"
  else hostname.

Section Extractor.

(** The suffix list in use, the decoding of a label before it is looked up
    (lower-casing, and IDNA decoding of punycode), and the two tests for
    IP literals. *)
Variable tlds : Trie.
Variable decode_punycode : string -> string.
Variable looks_like_ip : string -> bool.
Variable looks_like_ipv6 : string -> bool.

(** The loop of [suffix_index] over the labels from the right: [i] is the
    index of the longest suffix seen so far, [j] the index of the label
    before the current one. *)
Fixpoint suffix_walk (node : Trie) (rev_labels : list string) (i j : nat) : nat :=
  match rev_labels with
  | [] => i
  | label :: rest =>
      let decoded_label := decode_punycode label in
      match trie_get decoded_label (trie_matches node) with
      | Some child =>
          let j := (j - 1)%nat in
          suffix_walk child rest (if trie_end child then j else i) j
      | None =>
          match trie_get "*" (trie_matches node) with
          | Some _ =>
              match trie_get ("!" +:+ decoded_label) (trie_matches node) with
              | Some _ => j
              | None => (j - 1)%nat
              end
          | None => i
          end
      end
  end.

Definition suffix_index (labels : list string) : nat :=
  suffix_walk tlds (rev labels) (List.length labels) (List.length labels).

(** [s[1:-1]]. *)
Definition inner (s : string) : string :=
  PyStr.take (String.length s - 2) (PyStr.drop 1 s).

(** [_extract_netloc]. *)
Definition extract_netloc (netloc : string) : ExtractResult :=
  if (4 <=? String.length netloc)%nat
     && PyStr.startswith "[" netloc && PyStr.endswith "]" netloc
     && looks_like_ipv6 (inner netloc)
  then {| subdomain := ""; domain := netloc; suffix := "" |}
  else
    let labels := PyStr.split "." netloc in
    let suffix_index := suffix_index labels in
    if (suffix_index =? List.length labels)%nat && (List.length labels =? 4)%nat
       && looks_like_ip netloc
    then {| subdomain := ""; domain := netloc; suffix := "" |}
    else
      {| subdomain :=
           if (2 <=? suffix_index)%nat
           then PyStr.join "." (firstn (suffix_index - 1) labels) else "";
         domain :=
           if (1 <=? suffix_index)%nat
           then List.nth (suffix_index - 1) labels "" else "";
         suffix :=
           if (suffix_index =? List.length labels)%nat then ""
           else PyStr.join "." (skipn suffix_index labels) |}.

(** [tldextract.extract]. *)
Definition extract (u : string) : ExtractResult := extract_netloc (lenient_netloc u).

End Extractor.

End tldextract.

Class Libs : Type := {
  (** [tldextract.extract(url)] *)
  tldextract_extract : string -> Exception + tldextract.ExtractResult;
  (** [parser.parse_args()] on the command line; a rejected command line
      exits the process *)
  argparse_parse_args : list string -> result Namespace;
  (** [pd.read_csv(path, header=None, names=[outer_url, local_json_filepath])]:
      the rows of the data frame *)
  pd_read_csv : string -> gmap string FileContent -> Exception + list (pyval * pyval);
  (** [duckdb.connect()]: the error it raises, if any *)
  duckdb_connect : option Exception;
  (** [con.create_function(name, function, [str], str, type=udf_type)]: the
      error it raises, if any; the function is registered with the
      default null handling *)
  duckdb_create_function : string -> string -> option Exception;
  (** [con.execute(SELECT local_json_filepath FROM manifest_df).fetchall()],
      with the first item of each tuple taken: the values of the second
      column of the data frame *)
  duckdb_fetch_column : list (pyval * pyval) -> Exception + list pyval;
  (** [read_json(files, format='newline_delimited', compression='gzip')]:
      one row per record of the files named *)
  duckdb_read_json : string -> gmap string FileContent -> Exception + list JSONRecord;
  (** [COPY (...) TO path]: writes the rows; a failed write may leave
      something behind *)
  duckdb_copy_to : list ExtractedRow -> string -> gmap string FileContent ->
                   option Exception * gmap string FileContent;
  (** [HfApi.create_repo(repo_id, exist_ok=True, repo_type=dataset)] *)
  hf_create_repo : string -> gmap string (list Commit) ->
                   option Exception * gmap string (list Commit);
  (** [HfApi.upload_file(path_or_fileobj, path_in_repo, repo_id, repo_type=dataset, commit_message)] *)
  hf_upload_file : option FileContent -> string -> string -> string ->
                   gmap string (list Commit) ->
                   option Exception * gmap string (list Commit)
}.

Definition of_sum {A} (r : Exception + A) : result A :=
  match r with
  | inl e => Raise (Exc e)
  | inr a => Ok a
  end.

Definition of_status (r : option Exception) : result unit :=
  match r with
  | Some e => Raise (Exc e)
  | None => Ok tt
  end.

Section Program.

Context {L : Libs}.

(** *** [extract_domain_udf] (lines 22-35) *)

Definition extract_domain_udf (url : option string) : result (option string) :=
  match url with
  | None => Ok None
  | Some u =>
      match tldextract_extract u with
      | inr extracted =>
          if negb (PyStr.truthy (tldextract.domain extracted))
             || negb (PyStr.truthy (tldextract.suffix extracted))
          then Ok None
          else Ok (Some (tldextract.domain extracted +:+ "." +:+ tldextract.suffix extracted))
      | inl _ => Ok None   (* except Exception: return None *)
      end
  end.

(** *** The query of [main] (lines 100-111) *)

(** [metadata.url] in a record: null when the record has no [metadata]
    or [metadata] has no [url]. *)
Definition metadata_url (r : JSONRecord) : option string :=
  match metadata r with
  | Some m => url m
  | None => None
  end.

Definition is_not_null (u : option string) : bool :=
  match u with Some _ => true | None => false end.

(** The column [metadata.url] exists in the schema the engine infers for
    the input when some record has the field; when no record has it the
    query does not bind. *)
Definition binds_metadata_url (table : list JSONRecord) : bool :=
  existsb (fun r => is_not_null (metadata_url r)) table.

(** [SELECT url, extract_domain(url) AS domain]: the function registered
    on lines 87-89 is applied to each row.  It is registered with the
    default null handling: a null [url] gives a null [domain] without a
    call, and the query is aborted when the function returns [None] for
    a [url] that is not null, as it is when the function raises. *)
Fixpoint select_url_domain (urls : list (option string)) : result (list ExtractedRow) :=
  match urls with
  | [] => Ok []
  | u :: rest =>
      match u, extract_domain_udf u with
      | Some _, Ok None =>
          Raise (Exc (LibraryError "duckdb"
            "Invalid Input Error: The returned result contained NULL values, but the 'null_handling' was set to DEFAULT."))
      | _, Ok d =>
          match select_url_domain rest with
          | Ok rows => Ok ((u, d) :: rows)
          | Raise e => Raise e
          end
      | _, Raise e => Raise e
      end
  end.

(** [WITH urls AS (SELECT metadata.url AS url FROM read_json(...))
     SELECT ... FROM urls WHERE url IS NOT NULL] over the rows read. *)
Definition extraction_query (table : list JSONRecord) : result (list ExtractedRow) :=
  if binds_metadata_url table then
    let urls := List.map metadata_url table in
    select_url_domain (List.filter is_not_null urls)
  else
    Raise (Exc (LibraryError "duckdb"
      "Binder Error: Referenced column metadata.url not found")).

(** *** [upload_to_hf] (lines 136-176) *)

(** Lines 151-153: the parts of the repository identifier.  The variant is
    appended when it is truthy and its lower-cased form is not "default". *)
Definition repo_id_parts (args : Namespace) : list string :=
  [hf_username args; hf_base_dataset_name args] ++
  match hf_variant args with
  | Some v =>
      if PyStr.truthy v && negb (String.eqb (PyStr.lower v) "default")
      then [v] else []
  | None => []
  end.

(** Lines 154-155: join, then clean up underscores. *)
Definition repo_id_of (args : Namespace) : string :=
  let repo_id := PyStr.join "_" (repo_id_parts args) in
  PyStr.strip_char "_" (PyStr.replace "__" "_" repo_id).

Definition api_create_repo (repo_id : string) : M unit :=
  emit (EvCreateRepo repo_id);;;
  let! w := get_world in
  let (status, h) := hf_create_repo repo_id (hub w) in
  set_hub h;;;
  lift (of_status status).

Definition api_upload_file (local_path path_in_repo repo_id message : string) : M unit :=
  emit (EvUploadFile local_path path_in_repo repo_id);;;
  let! w := get_world in
  let (status, h) :=
    hf_upload_file (fs w !! local_path) path_in_repo repo_id message (hub w) in
  set_hub h;;;
  lift (of_status status).

Definition upload_to_hf (args : Namespace) (parquet_filepath_to_upload : string) : M unit :=
  let batch := PyStr.of_Z (batch_num args) in
  try_except
    (let! found := os_path_exists parquet_filepath_to_upload in
     if negb found
     then
       logger_error ("Parquet file " +:+ parquet_filepath_to_upload +:+
                     " not found for Hugging Face upload. Skipping upload.")
       (* return *)
     else
       logger_info ("Pushing file " +:+ parquet_filepath_to_upload +:+
                    " (batch " +:+ batch +:+ ") to HuggingFace Hub.");;;
       let repo_id := repo_id_of args in
       logger_info ("Target Hugging Face repository ID: " +:+ repo_id);;;
       api_create_repo repo_id;;;
       let path_in_repo := "data/" +:+ os_path_basename parquet_filepath_to_upload in
       api_upload_file parquet_filepath_to_upload path_in_repo repo_id
         ("Add extracted inner URLs batch " +:+ hf_base_dataset_name args +:+
          " batch " +:+ batch);;;
       logger_info ("Successfully uploaded batch " +:+ batch +:+
                    " to Hugging Face repo " +:+ repo_id +:+ " as " +:+ path_in_repo))
    (fun e =>
       logger_error ("Hugging Face upload failed for batch " +:+ batch +:+ " (" +:+
                     parquet_filepath_to_upload +:+ "): " +:+ str_of_exception e);;;
       raise (Exc e)).

(** *** [main] (lines 38-133) *)

(** [",".join(fpaths)] needs every item to be a string. *)
Fixpoint str_items (items : list pyval) : result (list string) :=
  match items with
  | [] => Ok []
  | PStr s :: rest =>
      match str_items rest with
      | Ok l => Ok (s :: l)
      | Raise e => Raise e
      end
  | _ :: _ => Raise (Exc (TypeError "sequence item: expected str instance"))
  end.

Definition read_csv (path : string) : M (list (pyval * pyval)) :=
  emit (EvReadCsv path);;;
  let! w := get_world in
  lift (of_sum (pd_read_csv path (fs w))).

(** Line 115, [con.execute(COPY (query) TO output)]: the files are read,
    the query is evaluated and its rows are written. *)
Definition execute_copy (files output_parquet_file : string) : M unit :=
  emit (EvReadJson files);;;
  let! w := get_world in
  let! table := lift (of_sum (duckdb_read_json files (fs w))) in
  let! rows := lift (extraction_query table) in
  emit (EvCopyTo output_parquet_file);;;
  let (status, f) := duckdb_copy_to rows output_parquet_file (fs w) in
  set_fs f;;;
  lift (of_status status).

(** Lines 86-118: the body of the [try] statement. *)
Definition main_try_body (args : Namespace) (output_parquet_file : string) : M unit :=
  let batch := PyStr.of_Z (batch_num args) in
  emit EvConnect;;;
  lift (of_status duckdb_connect);;;                               (* line 86 *)
  lift (of_status (duckdb_create_function "extract_domain" "SCALAR"));;;   (* lines 87-89 *)
  let! manifest_df := read_csv (manifest_file args) in
  let! fpaths := lift (of_sum (duckdb_fetch_column manifest_df)) in   (* lines 96-97 *)
  let! fpaths := lift (str_items fpaths) in
  let fpaths := PyStr.join "," fpaths in
  logger_debug ("Executing SQL query for batch " +:+ batch);;;
  execute_copy ("[" +:+ fpaths +:+ "]") output_parquet_file;;;
  logger_info ("Successfully processed downloaded JSONs for batch " +:+ batch +:+
               ", extracted inner URLs, and saved to " +:+ output_parquet_file).

(** Lines 120-127: the [except Exception] clause. *)
Definition main_except (args : Namespace) (output_parquet_file : string)
    (e : Exception) : M unit :=
  logger_error ("DuckDB processing failed for batch " +:+ PyStr.of_Z (batch_num args) +:+
                " (extracting inner URLs): " +:+ str_of_exception e);;;
  let! found := os_path_exists output_parquet_file in
  (if found then os_remove output_parquet_file else ret tt);;;
  raise (Exc e).

(** Lines 128-130: the [finally] clause.  [con] is in [locals()] exactly
    when [duckdb.connect()] has returned, and a connection is truthy. *)
Definition main_finally : M unit :=
  match duckdb_connect with
  | None => emit EvClose         (* con.close() *)
  | Some _ => ret tt
  end.

(** Lines 85-130: [try ... except ... finally]. *)
Definition main_try (args : Namespace) (output_parquet_file : string) : M unit :=
  try_finally
    (try_except (main_try_body args output_parquet_file)
                (main_except args output_parquet_file))
    main_finally.

Definition main (argv : list string) : M unit :=
  let! args := lift (argparse_parse_args argv) in
  os_makedirs (output_dir args);;;
  let batch := PyStr.of_Z (batch_num args) in
  let output_parquet_file :=
    os_path_join (output_dir args)
      (hf_base_dataset_name args +:+ "_extracted_inner_urls_batch_" +:+ batch +:+ ".parquet") in
  logger_info ("Starting JSON processing for batch " +:+ batch +:+ " from source " +:+
               hf_base_dataset_name args +:+ ", using manifest: " +:+ manifest_file args);;;
  let! json_inner_url_path := getattr args "json_inner_url_path" in
  logger_info ("Inner URL will be extracted from downloaded JSON files using JSONPath: " +:+
               str_of_pyval json_inner_url_path);;;
  main_try args output_parquet_file;;;
  upload_to_hf args output_parquet_file.

End Program.

(** ** A reference instance of the libraries

    A small, executable stand-in for each library, on which the program
    can be run: a suffix list of a few rules, a command line of
    [--option value] pairs, a comma-separated manifest, input files named
    in a bracketed comma-separated list, a writer and a hub that succeed.

    The instance is the one the program is written for, not the
    libraries as released: here [create_function] accepts the type
    [SCALAR], and [read_json] takes the bracketed text as a list of
    paths.  The engine itself rejects that type, and takes the quoted
    text as one glob pattern, in which the brackets are a character class
    (the two readings agree when every path is a single character); see
    [Cases.libs_udf_type_rejected]. *)

Module Ref.

Definition tlds : tldextract.Trie :=
  tldextract.trie_create ["com"; "org"; "net"; "uk"; "co.uk"; "ac.uk"; "ck"; "*.ck"; "!www.ck"].

Definition is_digit (c : ascii) : bool :=
  let n := nat_of_ascii c in (48 <=? n)%nat && (n <=? 57)%nat.

Definition looks_like_ip (s : string) : bool :=
  forallb (fun l => PyStr.truthy l && PyStr.all is_digit l && (String.length l <=? 3)%nat)
          (PyStr.split "." s).

Definition looks_like_ipv6 (s : string) : bool := PyStr.contains ":" s.

Definition extract (u : string) : Exception + tldextract.ExtractResult :=
  inr (tldextract.extract tlds PyStr.lower looks_like_ip looks_like_ipv6 u).

(** The command line as [--option value] pairs; a later pair overrides an
    earlier one. *)
Fixpoint options (argv : list string) : option (list (string * string)) :=
  match argv with
  | [] => Some []
  | key :: value :: rest =>
      if PyStr.startswith "--" key
      then option_map (fun l => (l ++ [(PyStr.drop 2 key, value)])%list) (options rest)
      else None
  | _ => None
  end.

Fixpoint option_value (name : string) (opts : list (string * string)) : option string :=
  match opts with
  | [] => None
  | (k, v) :: rest => if String.eqb k name then Some v else option_value name rest
  end.

Definition known_option (name : string) : bool :=
  existsb (String.eqb name)
    ["manifest_file"; "batch_num"; "hf_username"; "hf_base_dataset_name";
     "hf_variant"; "output_dir"].

Definition parse_args (argv : list string) : result Namespace :=
  match options argv with
  | Some opts =>
      if forallb (fun kv => known_option (fst kv)) opts then
        match option_value "manifest_file" opts,
              option_value "batch_num" opts,
              option_value "hf_username" opts,
              option_value "output_dir" opts with
        | Some m, Some b, Some u, Some o =>
            match NilZero.int_of_string b with
            | Some n =>
                Ok {| manifest_file := m;
                      batch_num := Z.of_int n;
                      hf_username := u;
                      hf_base_dataset_name :=
                        match option_value "hf_base_dataset_name" opts with
                        | Some d => d
                        | None => "dolma_extracted_inner_urls"
                        end;
                      hf_variant := option_value "hf_variant" opts;
                      output_dir := o |}
            | None => Raise (SystemExit 2)
            end
        | _, _, _, _ => Raise (SystemExit 2)
        end
      else Raise (SystemExit 2)
  | None => Raise (SystemExit 2)
  end.

Definition newline : ascii := ascii_of_nat 10.

Fixpoint manifest_rows (lines : list string) : Exception + list (pyval * pyval) :=
  match lines with
  | [] => inr []
  | line :: rest =>
      match manifest_rows rest with
      | inl e => inl e
      | inr rows =>
          match line, PyStr.split "," line with
          | EmptyString, _ => inr rows
          | _, [a] => inr ((PStr a, PNone) :: rows)
          | _, [a; b] => inr ((PStr a, PStr b) :: rows)
          | _, _ => inl (LibraryError "pandas" "Error tokenizing data")
          end
      end
  end.

Definition read_csv (path : string) (files : gmap string FileContent)
    : Exception + list (pyval * pyval) :=
  match files !! path with
  | Some (Text body) => manifest_rows (PyStr.split newline body)
  | Some _ => inl (LibraryError "pandas" "Error tokenizing data")
  | None => inl (FileNotFoundError path)
  end.

Fixpoint read_files (paths : list string) (files : gmap string FileContent)
    : Exception + list JSONRecord :=
  match paths with
  | [] => inr []
  | p :: rest =>
      match files !! p with
      | Some (GzJsonLines records) =>
          match read_files rest files with
          | inr more => inr (records ++ more)%list
          | inl e => inl e
          end
      | Some _ => inl (LibraryError "duckdb" ("Invalid Input Error: " +:+ p))
      | None => inl (LibraryError "duckdb" ("IO Error: No files found that match the pattern " +:+ p))
      end
  end.

(** The bracketed text read as a list of paths (see the head of the
    module). *)
Definition read_json (literal : string) (files : gmap string FileContent)
    : Exception + list JSONRecord :=
  read_files (PyStr.split "," (tldextract.inner literal)) files.

Definition connect : option Exception := None.

Definition create_function (name udf_type : string) : option Exception := None.

Definition fetch_column (manifest_df : list (pyval * pyval)) : Exception + list pyval :=
  inr (List.map snd manifest_df).

Definition copy_to (rows : list ExtractedRow) (path : string)
    (files : gmap string FileContent) : option Exception * gmap string FileContent :=
  (None, <[path := Parquet rows true]> files).

Definition create_repo (repo_id : string) (h : gmap string (list Commit))
    : option Exception * gmap string (list Commit) :=
  match h !! repo_id with
  | Some _ => (None, h)
  | None => (None, <[repo_id := []]> h)
  end.

Definition upload_file (content : option FileContent)
    (path_in_repo repo_id message : string) (h : gmap string (list Commit))
    : option Exception * gmap string (list Commit) :=
  match content, h !! repo_id with
  | Some c, Some commits =>
      (None, <[repo_id := (commits ++
                 [{| commit_path := path_in_repo; commit_message := message;
                     commit_file := c |}])%list]> h)
  | None, _ => (Some (LibraryError "huggingface_hub" "file not found"), h)
  | _, None => (Some (LibraryError "huggingface_hub" "404 repository not found"), h)
  end.

Definition libs : Libs := {|
  tldextract_extract := extract;
  argparse_parse_args := parse_args;
  pd_read_csv := read_csv;
  duckdb_connect := connect;
  duckdb_create_function := create_function;
  duckdb_fetch_column := fetch_column;
  duckdb_read_json := read_json;
  duckdb_copy_to := copy_to;
  hf_create_repo := create_repo;
  hf_upload_file := upload_file
|}.

(** A variant whose writer runs out of space after the first row. *)
Definition copy_to_full_disk (rows : list ExtractedRow) (path : string)
    (files : gmap string FileContent) : option Exception * gmap string FileContent :=
  (Some (LibraryError "duckdb" "IO Error: No space left on device"),
   <[path := Parquet (firstn 1 rows) false]> files).

Definition libs_full_disk : Libs := {|
  tldextract_extract := extract;
  argparse_parse_args := parse_args;
  pd_read_csv := read_csv;
  duckdb_connect := connect;
  duckdb_create_function := create_function;
  duckdb_fetch_column := fetch_column;
  duckdb_read_json := read_json;
  duckdb_copy_to := copy_to_full_disk;
  hf_create_repo := create_repo;
  hf_upload_file := upload_file
|}.

End Ref.

(** ** The end-to-end scenario of the specification *)

Module Scenario.

Definition manifest : string :=
  "https://host/a.json.gz,/data/a.json.gz" +:+ String Ref.newline
  ("https://host/b.json.gz,/data/b.json.gz" +:+ String Ref.newline "").

Definition files : gmap string FileContent :=
  <["/work/manifest.csv" := Text manifest]>
  (<["/data/a.json.gz" :=
       GzJsonLines [{| metadata := Some {| url := Some "https://sub.example.co.uk/page" |} |}]]>
  (<["/data/b.json.gz" := GzJsonLines [{| metadata := Some {| url := None |} |}]]> ∅)).

Definition world : World := {| fs := files; hub := ∅; logs := []; trace := [] |}.

Definition argv : list string :=
  ["--manifest_file"; "/work/manifest.csv"; "--batch_num"; "7";
   "--hf_username"; "alice"; "--output_dir"; "/out"].

Definition args : Namespace := {|
  manifest_file := "/work/manifest.csv";
  batch_num := 7;
  hf_username := "alice";
  hf_base_dataset_name := "dolma_extracted_inner_urls";
  hf_variant := None;
  output_dir := "/out"
|}.

Definition output_parquet_file : string :=
  "/out/dolma_extracted_inner_urls_extracted_inner_urls_batch_7.parquet".

(** The same world after an earlier run left an output file, and with the
    second input file gone. *)
Definition world_missing_input : World :=
  {| fs := <[output_parquet_file := Parquet [] true]> (delete "/data/b.json.gz" files);
     hub := ∅; logs := []; trace := [] |}.

End Scenario.

(** ** Notions used in the statements *)

Section RepoId.

(** [args] with the three fields the identifier is composed of; the other
    fields are arbitrary. *)
Variables (m o : string) (b : Z).

Definition identity (account base : string) (variant : option string) : Namespace :=
  {| manifest_file := m; batch_num := b; hf_username := account;
     hf_base_dataset_name := base; hf_variant := variant; output_dir := o |}.

End RepoId.

(** The events of the stages after the preamble of [main]: reading the
    manifest, extracting, exporting, uploading. *)
Definition stage_event (ev : Event) : bool :=
  match ev with
  | EvMakedirs _ => false
  | _ => true
  end.

(** Letters, digits and the hyphen: the characters of a host-name label. *)
Definition is_ldh (c : ascii) : bool :=
  let n := nat_of_ascii c in
  ((97 <=? n)%nat && (n <=? 122)%nat) || ((65 <=? n)%nat && (n <=? 90)%nat)
  || ((48 <=? n)%nat && (n <=? 57)%nat) || Ascii.eqb c "-".

Definition is_label (l : string) : bool := PyStr.truthy l && PyStr.all is_ldh l.

(** A URL is valid when the network location the library isolates in it is
    a host name: non-empty labels of letters, digits and hyphens,
    separated by dots. *)
Definition valid_url (u : string) : bool :=
  forallb is_label (PyStr.split "." (tldextract.lenient_netloc u)).

Definition is_hostchar (c : ascii) : bool := is_ldh c || Ascii.eqb c ".".

(** The last character of [s], if any, is not one [p] strips. *)
Fixpoint last_kept (p : ascii -> bool) (s : string) : bool :=
  match s with
  | EmptyString => true
  | String a EmptyString => negb (p a)
  | String _ r => last_kept p r
  end.

(** ** Notions used in the further properties *)

(** The calls to the remote hub. *)
Definition hub_event (ev : Event) : bool :=
  match ev with
  | EvCreateRepo _ | EvUploadFile _ _ _ => true
  | _ => false
  end.

(** The opening and the closing of the database connection. *)
Definition session_event (ev : Event) : bool :=
  match ev with
  | EvConnect | EvClose => true
  | _ => false
  end.

(** No two consecutive characters of [s] are both [c]. *)
Fixpoint no_double (c : ascii) (s : string) : bool :=
  match s with
  | EmptyString => true
  | String a r =>
      negb (Ascii.eqb a c && PyStr.startswith (String c "") r) && no_double c r
  end.

(** A part of the repository identifier that the clean-up leaves alone:
    not empty, no underscore at either end, no doubled underscore. *)
Definition tidy (s : string) : bool :=
  PyStr.truthy s && negb (PyStr.startswith "_" s) && negb (PyStr.endswith "_" s)
  && no_double "_" s.

(** Line 75: the name of the output file of a batch. *)
Definition output_file_name (args : Namespace) : string :=
  hf_base_dataset_name args +:+ "_extracted_inner_urls_batch_" +:+
  PyStr.of_Z (batch_num args) +:+ ".parquet".

(** Worlds and libraries on which the further properties are run. *)
Module Cases.

(** The world of the scenario after a successful export. *)
Definition exported : World :=
  {| fs := <[Scenario.output_parquet_file :=
               Parquet [(Some "https://sub.example.co.uk/page", Some "example.co.uk")] true]>
             Scenario.files;
     hub := ∅; logs := []; trace := [] |}.

(** A hub that refuses to create repositories. *)
Definition create_repo_denied (repo_id : string) (h : gmap string (list Commit))
    : option Exception * gmap string (list Commit) :=
  (Some (LibraryError "huggingface_hub" "401 Unauthorized"), h).

Definition libs_create_denied : Libs := {|
  tldextract_extract := Ref.extract;
  argparse_parse_args := Ref.parse_args;
  pd_read_csv := Ref.read_csv;
  duckdb_connect := Ref.connect;
  duckdb_create_function := Ref.create_function;
  duckdb_fetch_column := Ref.fetch_column;
  duckdb_read_json := Ref.read_json;
  duckdb_copy_to := Ref.copy_to;
  hf_create_repo := create_repo_denied;
  hf_upload_file := Ref.upload_file
|}.

(** A hub that creates repositories and then loses the connection. *)
Definition upload_file_broken (content : option FileContent)
    (path_in_repo repo_id message : string) (h : gmap string (list Commit))
    : option Exception * gmap string (list Commit) :=
  (Some (LibraryError "huggingface_hub" "Connection reset"), h).

Definition libs_upload_broken : Libs := {|
  tldextract_extract := Ref.extract;
  argparse_parse_args := Ref.parse_args;
  pd_read_csv := Ref.read_csv;
  duckdb_connect := Ref.connect;
  duckdb_create_function := Ref.create_function;
  duckdb_fetch_column := Ref.fetch_column;
  duckdb_read_json := Ref.read_json;
  duckdb_copy_to := Ref.copy_to;
  hf_create_repo := Ref.create_repo;
  hf_upload_file := upload_file_broken
|}.

(** A parser library that raises on every URL. *)
Definition extract_raising (u : string) : Exception + tldextract.ExtractResult :=
  inl (LibraryError "tldextract" "cannot parse").

Definition libs_extract_raising : Libs := {|
  tldextract_extract := extract_raising;
  argparse_parse_args := Ref.parse_args;
  pd_read_csv := Ref.read_csv;
  duckdb_connect := Ref.connect;
  duckdb_create_function := Ref.create_function;
  duckdb_fetch_column := Ref.fetch_column;
  duckdb_read_json := Ref.read_json;
  duckdb_copy_to := Ref.copy_to;
  hf_create_repo := Ref.create_repo;
  hf_upload_file := Ref.upload_file
|}.

(** The engine as released: the type [SCALAR] of lines 87-89 is not one it
    knows. *)
Definition create_function_typed (name udf_type : string) : option Exception :=
  if String.eqb udf_type "native" || String.eqb udf_type "arrow" then None
  else Some (LibraryError "duckdb"
               ("Invalid Input Error: '" +:+ udf_type +:+
                "' is not a recognized type for 'udf_type'")).

Definition libs_udf_type_rejected : Libs := {|
  tldextract_extract := Ref.extract;
  argparse_parse_args := Ref.parse_args;
  pd_read_csv := Ref.read_csv;
  duckdb_connect := Ref.connect;
  duckdb_create_function := create_function_typed;
  duckdb_fetch_column := Ref.fetch_column;
  duckdb_read_json := Ref.read_json;
  duckdb_copy_to := Ref.copy_to;
  hf_create_repo := Ref.create_repo;
  hf_upload_file := Ref.upload_file
|}.

(** An engine that cannot be started. *)
Definition libs_no_connection : Libs := {|
  tldextract_extract := Ref.extract;
  argparse_parse_args := Ref.parse_args;
  pd_read_csv := Ref.read_csv;
  duckdb_connect := Some (LibraryError "duckdb" "IO Error: cannot open database");
  duckdb_create_function := create_function_typed;
  duckdb_fetch_column := Ref.fetch_column;
  duckdb_read_json := Ref.read_json;
  duckdb_copy_to := Ref.copy_to;
  hf_create_repo := Ref.create_repo;
  hf_upload_file := Ref.upload_file
|}.


End Cases.

(** [src/main.py], line 12: [loc = repo_id.split("/")[-1]]. *)
Module Mirror.

Definition loc (repo_id : string) : string := List.last (PyStr.split "/" repo_id) "".

End Mirror.

(** * Properties *)

(** ** The string operations on examples *)

Example replace_ex1 : PyStr.replace "__" "_" "a___b____c" = "a__b__c".
Proof. reflexivity. Qed.

Example strip_ex1 : PyStr.strip_char "_" "__a_b_" = "a_b".
Proof. reflexivity. Qed.

Example split_ex1 : PyStr.split "." "sub.example.co.uk" = ["sub"; "example"; "co"; "uk"].
Proof. reflexivity. Qed.

Example split_ex2 : PyStr.split "." "a..b." = ["a"; ""; "b"; ""].
Proof. reflexivity. Qed.

Example lower_ex1 : PyStr.lower "DeFault-2" = "default-2".
Proof. reflexivity. Qed.

Example basename_ex1 : os_path_basename "/out/batch_7.parquet" = "batch_7.parquet".
Proof. reflexivity. Qed.

Example path_join_ex1 : os_path_join "/out" "x.parquet" = "/out/x.parquet".
Proof. reflexivity. Qed.

Example path_join_ex2 : os_path_join "/out/" "/abs/x.parquet" = "/abs/x.parquet".
Proof. reflexivity. Qed.

(** ** The library model on examples *)

Example lenient_netloc_ex1 :
  tldextract.lenient_netloc "https://user:pw@sub.example.co.uk:8080/page?x=1#top"
  = "sub.example.co.uk".
Proof. reflexivity. Qed.

Example lenient_netloc_ex2 : tldextract.lenient_netloc "//example.com./" = "example.com".
Proof. reflexivity. Qed.

Example extract_wildcard :
  Ref.extract "http://x.a.b.ck/"
  = inr {| tldextract.subdomain := "x"; tldextract.domain := "a"; tldextract.suffix := "b.ck" |}.
Proof. reflexivity. Qed.

Example extract_wildcard_exception :
  Ref.extract "http://www.ck/"
  = inr {| tldextract.subdomain := ""; tldextract.domain := "www"; tldextract.suffix := "ck" |}.
Proof. reflexivity. Qed.

Example extract_unknown_suffix :
  Ref.extract "not a url"
  = inr {| tldextract.subdomain := ""; tldextract.domain := "not a url";
           tldextract.suffix := "" |}.
Proof. reflexivity. Qed.

Example extract_ipv4 :
  Ref.extract "http://127.0.0.1:8000/"
  = inr {| tldextract.subdomain := ""; tldextract.domain := "127.0.0.1";
           tldextract.suffix := "" |}.
Proof. reflexivity. Qed.

(** ** Properties of the repository identifier *)

Lemma truthy_false (s : string) : PyStr.truthy s = false <-> s = "".
Proof. destruct s; simpl; split; congruence. Qed.

(** C7 (as stated, refuted): the third test vector of the specification
    does not hold; the account, the base name and the variant are all
    joined, so the identifier ends in [_v2_v2]. *)
Lemma repo_id_third_vector_differs :
  repo_id_of (identity "manifest.csv" "out" 0 "alice__mydata" "v2" (Some "v2"))
  <> "alice_mydata_v2".
Proof. vm_compute. discriminate. Qed.

(** C7 (amended): the identifier composed from (alice, mydata, None) and
    from (alice, mydata, default) is [alice_mydata]; the one composed from
    (alice__mydata, v2, v2) is [alice_mydata_v2_v2]: the doubled underscore
    is collapsed and every part is kept. *)
Theorem repo_id_test_vectors (m o : string) (b : Z) :
  repo_id_of (identity m o b "alice" "mydata" None) = "alice_mydata"
  /\ repo_id_of (identity m o b "alice" "mydata" (Some "default")) = "alice_mydata"
  /\ repo_id_of (identity m o b "alice__mydata" "v2" (Some "v2")) = "alice_mydata_v2_v2".
Proof. repeat split; reflexivity. Qed.

(** C8 (as stated, refuted): the variant [Default] differs from the
    literal [default] and is present, yet it is omitted. *)
Lemma repo_id_parts_Default_omitted :
  ~ (repo_id_parts (identity "manifest.csv" "out" 0 "alice" "mydata" (Some "Default"))
     = ["alice"; "mydata"]
     <-> (Some "Default" = @None string \/ Some "Default" = Some "default")).
Proof.
  intros [H _]. specialize (H eq_refl). destruct H as [H | H]; discriminate H.
Qed.

(** C8 (amended): the variant is omitted from the parts of the identifier
    if and only if it is absent, empty, or equal to [default] once
    lower-cased; every other variant is appended as the third part. *)
Theorem repo_id_parts_variant (args : Namespace) :
  (repo_id_parts args = [hf_username args; hf_base_dataset_name args]
   <-> (hf_variant args = None \/ hf_variant args = Some ""
        \/ exists v, hf_variant args = Some v /\ PyStr.lower v = "default"))
  /\ (forall v, hf_variant args = Some v -> v <> "" -> PyStr.lower v <> "default" ->
      repo_id_parts args = [hf_username args; hf_base_dataset_name args; v]).
Proof.
  unfold repo_id_parts. destruct (hf_variant args) as [v|].
  - destruct (PyStr.truthy v) eqn:Ht;
      destruct (String.eqb (PyStr.lower v) "default") eqn:He;
      cbn [andb negb app];
      first [rewrite String.eqb_eq in He | rewrite String.eqb_neq in He];
      try rewrite truthy_false in Ht.
    + split.
      * split; [intros _ | reflexivity]. right; right. exists v. now split.
      * intros v' [= <-] _ Hn. now contradiction Hn.
    + split.
      * split; [discriminate |].
        intros [H | [H | [v' [[= <-] H]]]]; [discriminate | | now contradiction He].
        injection H as ->. discriminate Ht.
      * intros v' [= <-] _ _. reflexivity.
    + split.
      * split; [intros _ | reflexivity]. right; left. now subst.
      * intros v' [= <-] Hne. now contradiction Hne.
    + split.
      * split; [intros _ | reflexivity]. right; left. now subst.
      * intros v' [= <-] Hne. now contradiction Hne.
  - split; [split; [intros _; left; reflexivity | reflexivity] |].
    intros v' [=].
Qed.

Lemma repo_id_parts_variant_witness :
  repo_id_parts (identity "manifest.csv" "out" 0 "alice" "mydata" (Some "DEFAULT-2"))
  = ["alice"; "mydata"; "DEFAULT-2"].
Proof.
  apply (proj2 (repo_id_parts_variant
                  (identity "manifest.csv" "out" 0 "alice" "mydata" (Some "DEFAULT-2")))
               "DEFAULT-2" eq_refl); simpl; discriminate.
Defined.

(** ** Properties of the domain resolver *)

Section Resolver.

Context {L : Libs}.

Lemma extract_domain_udf_returns (url : option string) :
  exists r, extract_domain_udf url = Ok r.
Proof.
  unfold extract_domain_udf. destruct url as [u|]; [| now exists None].
  destruct (tldextract_extract u) as [e | x]; [now exists None |].
  destruct (negb _ || negb _); eauto.
Qed.

End Resolver.

(** C4: [extract_domain_udf] returns for every input and every behaviour
    of the parsing library, and never raises: an absent input gives an
    absent output; an input on which the library raises, or whose parse
    lacks the domain label or the suffix label, gives an absent output. *)
Theorem extract_domain_udf_never_raises (L : Libs) (url : option string) :
  (exists r, extract_domain_udf url = Ok r)
  /\ (url = None -> extract_domain_udf url = Ok None)
  /\ (forall u e, url = Some u -> tldextract_extract u = inl e ->
      extract_domain_udf url = Ok None)
  /\ (forall u x, url = Some u -> tldextract_extract u = inr x ->
      tldextract.domain x = "" \/ tldextract.suffix x = "" ->
      extract_domain_udf url = Ok None).
Proof.
  split; [apply extract_domain_udf_returns |].
  split; [now intros -> |].
  split.
  - intros u e -> He. unfold extract_domain_udf. now rewrite He.
  - intros u x -> Hx Hempty. unfold extract_domain_udf. rewrite Hx.
    destruct Hempty as [-> | ->]; simpl; [reflexivity |].
    now destruct (negb (PyStr.truthy (tldextract.domain x))).
Qed.

Lemma extract_domain_udf_never_raises_witness :
  extract_domain_udf (L := Ref.libs) (Some "not a url") = Ok None.
Proof.
  apply (proj2 (proj2 (proj2 (extract_domain_udf_never_raises Ref.libs (Some "not a url"))))
           "not a url"
           {| tldextract.subdomain := ""; tldextract.domain := "not a url";
              tldextract.suffix := "" |} eq_refl).
  - vm_compute. reflexivity.
  - right. reflexivity.
Defined.

(** C5: when the parse of a URL has a non-empty domain label and a
    non-empty suffix label, [extract_domain_udf] returns the two joined by
    a dot; the suffix is the one the public suffix rules single out, so a
    URL with host [sub.example.co.uk] resolves to [example.co.uk]. *)
Theorem extract_domain_udf_registered_domain (L : Libs) (u : string)
    (x : tldextract.ExtractResult) :
  tldextract_extract u = inr x ->
  tldextract.domain x <> "" ->
  tldextract.suffix x <> "" ->
  extract_domain_udf (Some u)
  = Ok (Some (tldextract.domain x +:+ "." +:+ tldextract.suffix x)).
Proof.
  intros Hx Hd Hs. unfold extract_domain_udf. rewrite Hx.
  destruct (tldextract.domain x); [now contradiction Hd |].
  destruct (tldextract.suffix x); [now contradiction Hs |].
  reflexivity.
Qed.

Lemma extract_domain_udf_registered_domain_witness :
  extract_domain_udf (L := Ref.libs) (Some "https://sub.example.co.uk/page")
  = Ok (Some "example.co.uk").
Proof.
  apply (extract_domain_udf_registered_domain Ref.libs "https://sub.example.co.uk/page"
           {| tldextract.subdomain := "sub"; tldextract.domain := "example";
              tldextract.suffix := "co.uk" |}).
  - vm_compute. reflexivity.
  - simpl. discriminate.
  - simpl. discriminate.
Defined.

(** ** Properties of the extraction query *)

Section Query.

Context {L : Libs}.


(** The query is aborted by nothing but an [Exception]. *)
Lemma select_url_domain_raises (urls : list (option string)) (e : BaseException) :
  select_url_domain urls = Raise e -> exists e', e = Exc e'.
Proof.
  induction urls as [|u urls IH]; cbn [select_url_domain]; [discriminate |].
  destruct u as [v|].
  - destruct (extract_domain_udf_returns (Some v)) as [[d|] ->].
    + destruct (select_url_domain urls) as [rest|]; [discriminate |].
      intros [= <-]. now apply IH.
    + intros [= <-]. eauto.
  - destruct (extract_domain_udf_returns None) as [d ->].
    destruct (select_url_domain urls) as [rest|]; [discriminate |].
    intros [= <-]. now apply IH.
Qed.

Lemma extraction_query_raises (table : list JSONRecord) (e : BaseException) :
  extraction_query table = Raise e -> exists e', e = Exc e'.
Proof.
  unfold extraction_query. destruct (binds_metadata_url table).
  - apply select_url_domain_raises.
  - intros [= <-]. eauto.
Qed.




End Query.



(** ** Properties of the driver and of the publisher *)

Lemma ns_vars_json_inner_url_path (args : Namespace) :
  ns_vars args !! "json_inner_url_path" = None.
Proof.
  unfold ns_vars. repeat (rewrite lookup_insert_ne by discriminate). apply lookup_empty.
Qed.

(** The attributes of the namespace are the six destinations the parser
    declares. *)
Lemma ns_vars_declared (args : Namespace) (name : string) :
  is_Some (ns_vars args !! name)
  <-> In name ["manifest_file"; "batch_num"; "hf_username"; "hf_base_dataset_name";
               "hf_variant"; "output_dir"].
Proof.
  unfold ns_vars. simpl. rewrite !lookup_insert_is_Some, lookup_empty, is_Some_alt.
  split.
  - intros H. repeat (destruct H as [<- | [_ H]]; [auto 10 |]). destruct H.
  - intros H. repeat (destruct H as [<- | H]; [auto 20 |]). destruct H.
Qed.

Section Driver.

Context {L : Libs}.

(** What [main] does on every command line and in every world: it stops
    at the command line, at the output directory, or at line 82. *)
Lemma main_outcome (argv : list string) (w : World) :
  main argv w =
  match argparse_parse_args argv with
  | Raise e => (Raise e, w)
  | Ok args =>
      match os_makedirs (output_dir args) w with
      | (Raise e, w1) => (Raise e, w1)
      | (Ok _, w1) =>
          (Raise (Exc (AttributeError "json_inner_url_path")),
           {| fs := fs w1; hub := hub w1;
              logs := logs w1 ++
                [(INFO, "Starting JSON processing for batch " +:+ PyStr.of_Z (batch_num args)
                        +:+ " from source " +:+ hf_base_dataset_name args
                        +:+ ", using manifest: " +:+ manifest_file args)];
              trace := trace w1 |})
      end
  end.
Proof.
  unfold main, bind at 1, lift. destruct (argparse_parse_args argv) as [args | e]; [| reflexivity].
  unfold bind at 1. destruct (os_makedirs (output_dir args) w) as [[[] | e] w1]; [| reflexivity].
  unfold getattr. rewrite ns_vars_json_inner_url_path. reflexivity.
Qed.

(** [os.makedirs] touches nothing but the trace. *)
Lemma os_makedirs_world (path : string) (w w1 : World) (r : result unit) :
  os_makedirs path w = (r, w1) ->
  fs w1 = fs w /\ hub w1 = hub w /\ logs w1 = logs w
  /\ trace w1 = trace w ++ [EvMakedirs path].
Proof.
  unfold os_makedirs, bind, emit, get_world, raise, ret. simpl.
  destruct path; [| destruct (fs w !! _)]; intros [= <- <-]; repeat split.
Qed.

(** The body of the [try] statement raises nothing but [Exception]s. *)
Lemma main_try_body_raises (args : Namespace) (out : string) (w w1 : World)
    (e : BaseException) :
  main_try_body args out w = (Raise e, w1) -> exists e', e = Exc e'.
Proof.
  unfold main_try_body, read_csv, execute_copy, bind, emit, get_world, lift, set_fs,
    logger_debug, logger_info, logger_log. cbn -[extraction_query String.append].
  destruct duckdb_connect as [e0|]; cbn -[extraction_query String.append];
    [intros [= <- _]; eauto |].
  destruct (duckdb_create_function _ _) as [e0|]; cbn -[extraction_query String.append];
    [intros [= <- _]; eauto |].
  destruct (pd_read_csv _ _) as [e1 | df]; cbn -[extraction_query String.append];
    [intros [= <- _]; eauto |].
  destruct (duckdb_fetch_column df) as [e1 | cells]; cbn -[extraction_query String.append];
    [intros [= <- _]; eauto |].
  destruct (str_items cells) as [paths | e2] eqn:Hitems;
    cbn -[extraction_query String.append].
  - destruct (duckdb_read_json _ _) as [e3 | table]; cbn -[extraction_query String.append];
      [intros [= <- _]; eauto |].
    destruct (extraction_query table) as [rows | e3] eqn:Hq;
      cbn -[extraction_query String.append];
      [| intros [= <- _]; now apply (extraction_query_raises table)].
    destruct (duckdb_copy_to _ _ _) as [[e4|] disk]; cbn -[extraction_query String.append];
      [intros [= <- _]; eauto |].
    discriminate.
  - intros [= <- _]. clear -Hitems. revert e2 Hitems.
    induction cells as [|[| s |n] items IH]; simpl; intros e2 H;
      try discriminate; try (injection H as <-; eauto).
    destruct (str_items items); [discriminate |]. injection H as <-. now apply IH.
Qed.

End Driver.

(** C2: every invocation of [main] raises, whatever the command line and
    the world: nothing but the creation of the output directory has
    happened by then, neither the manifest has been read nor anything
    extracted, exported or uploaded, and the file system and the hub are
    unchanged.  When the command line is accepted and the output directory
    is created, the exception is the failed lookup of the attribute
    [json_inner_url_path], which the parser does not define. *)
Theorem main_always_raises (L : Libs) (argv : list string) (w : World) :
  exists e w' events,
    main argv w = (Raise e, w')
    /\ trace w' = trace w ++ events
    /\ Forall (fun ev => stage_event ev = false) events
    /\ fs w' = fs w
    /\ hub w' = hub w
    /\ (forall args w1, argparse_parse_args argv = Ok args ->
        os_makedirs (output_dir args) w = (Ok tt, w1) ->
        e = Exc (AttributeError "json_inner_url_path")).
Proof.
  rewrite main_outcome. destruct (argparse_parse_args argv) as [args | e].
  - destruct (os_makedirs (output_dir args) w) as [[[] | e] w1] eqn:Hdir;
      destruct (os_makedirs_world _ _ _ _ Hdir) as (Hfs & Hhub & _ & Htrace).
    + eexists _, _, [EvMakedirs (output_dir args)]. simpl. repeat split; auto.
    + eexists _, _, [EvMakedirs (output_dir args)]. repeat split; auto.
      intros args' w2 [= <-]. rewrite Hdir. discriminate.
  - exists e, w, []. rewrite app_nil_r. repeat split; auto. discriminate.
Qed.

Lemma main_always_raises_witness :
  exists w', main (L := Ref.libs) Scenario.argv Scenario.world
             = (Raise (Exc (AttributeError "json_inner_url_path")), w').
Proof.
  destruct (main_always_raises Ref.libs Scenario.argv Scenario.world)
    as (e & w' & events & Hmain & _ & _ & _ & _ & He).
  exists w'. rewrite Hmain.
  rewrite (He Scenario.args
              (snd (os_makedirs (output_dir Scenario.args) Scenario.world)));
    [reflexivity | |].
  - vm_compute. reflexivity.
  - vm_compute. reflexivity.
Defined.

(** C3: when the body of the [try] statement of [main] raises, during
    extraction or export, the statement raises the same error, the rest of
    [main] is not run, and no file is left at the output path: a partial
    file, or one that was there before, is removed. *)
Theorem main_try_leaves_no_partial_file (L : Libs) (args : Namespace) (out : string)
    (w w1 : World) (e : BaseException) :
  main_try_body args out w = (Raise e, w1) ->
  exists w',
    main_try args out w = (Raise e, w')
    /\ (main_try args out;;; upload_to_hf args out) w = (Raise e, w')
    /\ fs w' !! out = None.
Proof.
  intros Hbody. destruct (main_try_body_raises _ _ _ _ _ Hbody) as [e' ->].
  unfold bind at 1. unfold main_try, try_finally, try_except. rewrite Hbody.
  unfold main_except, main_finally, os_path_exists, os_remove, bind, emit, get_world,
    set_fs, raise, ret, logger_error, logger_log. simpl.
  destruct (fs w1 !! out) as [c|] eqn:Hout.
  - rewrite bool_decide_eq_true_2 by eauto. simpl. rewrite Hout. simpl.
    destruct duckdb_connect; eexists; repeat split; simpl; apply lookup_delete_eq.
  - rewrite bool_decide_eq_false_2 by (intros [c Hc]; discriminate). simpl.
    destruct duckdb_connect; eexists; repeat split; simpl; exact Hout.
Qed.

Lemma main_try_leaves_no_partial_file_witness :
  exists w',
    main_try (L := Ref.libs_full_disk) Scenario.args Scenario.output_parquet_file Scenario.world
    = (Raise (Exc (LibraryError "duckdb" "IO Error: No space left on device")), w')
    /\ (main_try (L := Ref.libs_full_disk) Scenario.args Scenario.output_parquet_file;;;
        upload_to_hf (L := Ref.libs_full_disk) Scenario.args Scenario.output_parquet_file)
         Scenario.world
       = (Raise (Exc (LibraryError "duckdb" "IO Error: No space left on device")), w')
    /\ fs w' !! Scenario.output_parquet_file = None.
Proof.
  apply (main_try_leaves_no_partial_file Ref.libs_full_disk Scenario.args
           Scenario.output_parquet_file Scenario.world
           (snd (main_try_body (L := Ref.libs_full_disk) Scenario.args
                   Scenario.output_parquet_file Scenario.world))).
  vm_compute. reflexivity.
Defined.

(** A referenced input file that does not exist: the run fails, the file
    an earlier run left at the output path is removed, and the connection
    is closed. *)
Example main_try_missing_input :
  fst (main_try (L := Ref.libs) Scenario.args Scenario.output_parquet_file
         Scenario.world_missing_input)
  = Raise (Exc (LibraryError "duckdb"
                  "IO Error: No files found that match the pattern /data/b.json.gz"))
  /\ fs (snd (main_try (L := Ref.libs) Scenario.args Scenario.output_parquet_file
                Scenario.world_missing_input)) !! Scenario.output_parquet_file = None
  /\ trace (snd (main_try (L := Ref.libs) Scenario.args Scenario.output_parquet_file
                   Scenario.world_missing_input))
     = [EvConnect; EvReadCsv "/work/manifest.csv";
        EvReadJson "[/data/a.json.gz,/data/b.json.gz]";
        EvRemove Scenario.output_parquet_file; EvClose].
Proof. repeat split; vm_compute; reflexivity. Qed.

(** C10: when no file exists at the path handed to [upload_to_hf], the
    function returns normally: it logs one error record and changes
    nothing else; neither [create_repo] nor [upload_file] is called. *)
Theorem upload_to_hf_skips_missing_file (L : Libs) (args : Namespace) (path : string)
    (w : World) :
  fs w !! path = None ->
  exists w',
    upload_to_hf args path w = (Ok tt, w')
    /\ trace w' = trace w
    /\ hub w' = hub w
    /\ fs w' = fs w
    /\ logs w' = logs w ++
         [(ERROR, "Parquet file " +:+ path +:+
                  " not found for Hugging Face upload. Skipping upload.")].
Proof.
  intros Hmissing.
  unfold upload_to_hf, try_except, os_path_exists, bind, logger_error, logger_log.
  rewrite bool_decide_eq_false_2 by (rewrite Hmissing; intros [c Hc]; discriminate).
  simpl. eexists. repeat split.
Qed.

Lemma upload_to_hf_skips_missing_file_witness :
  exists w',
    upload_to_hf (L := Ref.libs) Scenario.args Scenario.output_parquet_file Scenario.world
    = (Ok tt, w')
    /\ trace w' = []
    /\ hub w' = ∅
    /\ fs w' = Scenario.files
    /\ logs w' =
         [(ERROR, "Parquet file " +:+ Scenario.output_parquet_file +:+
                  " not found for Hugging Face upload. Skipping upload.")].
Proof.
  apply (upload_to_hf_skips_missing_file Ref.libs Scenario.args
           Scenario.output_parquet_file Scenario.world).
  vm_compute. reflexivity.
Defined.

(** C1 (the code at the scenario): on the manifest of the two files of the
    specification, [main] stops at the log message of line 82 with an
    attribute error; no output file is written and nothing is uploaded.
    From line 85 on, the same run would write the one row the
    specification expects and upload it. *)
Theorem main_end_to_end_stops_before_try :
  fst (main (L := Ref.libs) Scenario.argv Scenario.world)
  = Raise (Exc (AttributeError "json_inner_url_path"))
  /\ fs (snd (main (L := Ref.libs) Scenario.argv Scenario.world))
       !! Scenario.output_parquet_file = None
  /\ trace (snd (main (L := Ref.libs) Scenario.argv Scenario.world)) = [EvMakedirs "/out"]
  /\ argparse_parse_args (Libs := Ref.libs) Scenario.argv = Ok Scenario.args
  /\ fst ((main_try (L := Ref.libs) Scenario.args Scenario.output_parquet_file;;;
           upload_to_hf (L := Ref.libs) Scenario.args Scenario.output_parquet_file)
            Scenario.world) = Ok tt
  /\ fs (snd ((main_try (L := Ref.libs) Scenario.args Scenario.output_parquet_file;;;
               upload_to_hf (L := Ref.libs) Scenario.args Scenario.output_parquet_file)
                Scenario.world)) !! Scenario.output_parquet_file
     = Some (Parquet [(Some "https://sub.example.co.uk/page", Some "example.co.uk")] true).
Proof. repeat split; vm_compute; reflexivity. Qed.

(** ** Idempotence of the resolver on the library model *)

Ltac ascii_cases c :=
  destruct c as [[] [] [] [] [] [] [] []]; vm_compute; try reflexivity; try discriminate.

Lemma hostchar_not_space (c : ascii) : is_hostchar c = true -> PyStr.is_space c = false.
Proof. ascii_cases c. Qed.

Lemma hostchar_not_sep (c : ascii) :
  is_hostchar c = true ->
  Ascii.eqb c "/" = false /\ Ascii.eqb c "?" = false /\ Ascii.eqb c "#" = false
  /\ Ascii.eqb c "@" = false /\ Ascii.eqb c ":" = false /\ Ascii.eqb c "[" = false.
Proof. ascii_cases c; intros _; repeat split. Qed.

Lemma ldh_hostchar (c : ascii) : is_ldh c = true -> is_hostchar c = true.
Proof. unfold is_hostchar. now intros ->. Qed.

Lemma ldh_not_dot (c : ascii) : is_ldh c = true -> Ascii.eqb c "." = false.
Proof. ascii_cases c. Qed.

Section StringFacts.

Lemma append_nil_l (t : string) : "" +:+ t = t.
Proof. reflexivity. Qed.

Lemma append_cons (a : ascii) (r t : string) : String a r +:+ t = String a (r +:+ t).
Proof. reflexivity. Qed.

Lemma all_impl (p q : ascii -> bool) (s : string) :
  (forall c, p c = true -> q c = true) -> PyStr.all p s = true -> PyStr.all q s = true.
Proof.
  intros Hpq. induction s as [|a r IH]; simpl; [reflexivity |].
  rewrite !andb_true_iff. intros [Ha Hr]. split; auto.
Qed.

Lemma all_app (p : ascii -> bool) (s t : string) :
  PyStr.all p (s +:+ t) = PyStr.all p s && PyStr.all p t.
Proof.
  induction s as [|a r IH]; simpl; [reflexivity |]. now rewrite IH, andb_assoc.
Qed.

Lemma all_not_contains (p : ascii -> bool) (c : ascii) (s : string) :
  PyStr.all p s = true -> p c = false -> PyStr.contains c s = false.
Proof.
  intros Hall Hc. induction s as [|a r IH]; simpl in *; [reflexivity |].
  apply andb_true_iff in Hall as [Ha Hr]. rewrite (IH Hr), orb_false_r.
  destruct (Ascii.eqb_spec a c) as [-> | _]; [congruence | reflexivity].
Qed.

Lemma before_id (c : ascii) (s : string) :
  PyStr.contains c s = false -> PyStr.before c s = s.
Proof.
  induction s as [|a r IH]; simpl; [reflexivity |].
  intros H. apply orb_false_iff in H as [-> Hr]. now rewrite (IH Hr).
Qed.

Lemma after_last_id (c : ascii) (s : string) :
  PyStr.contains c s = false -> PyStr.after_last c s = s.
Proof.
  destruct s as [|a r]; simpl; [reflexivity |].
  intros H. apply orb_false_iff in H as [-> ->]. reflexivity.
Qed.

Lemma lstrip_id (p : ascii -> bool) (a : ascii) (r : string) :
  p a = false -> PyStr.lstrip p (String a r) = String a r.
Proof. simpl. now intros ->. Qed.

Lemma rstrip_id (p : ascii -> bool) (s : string) :
  last_kept p s = true -> PyStr.rstrip p s = s.
Proof.
  induction s as [|a r IH]; [reflexivity |].
  destruct r as [|b r'].
  - simpl. intros H. apply negb_true_iff in H. now rewrite H.
  - intros H. change (last_kept p (String a (String b r'))) with (last_kept p (String b r')) in H.
    specialize (IH H). change (PyStr.rstrip p (String a (String b r')))
      with (match PyStr.rstrip p (String b r') with
            | EmptyString => if p a then EmptyString else String a EmptyString
            | r'' => String a r''
            end).
    now rewrite IH.
Qed.

Lemma last_kept_app (p : ascii -> bool) (s t : string) :
  t <> "" -> last_kept p (s +:+ t) = last_kept p t.
Proof.
  intros Ht. induction s as [|a r IH]; [reflexivity |].
  simpl. destruct (r +:+ t) eqn:E; [| exact IH].
  destruct r; [rewrite append_nil_l in E; now contradiction Ht | discriminate E].
Qed.

Lemma last_kept_all (p q : ascii -> bool) (s : string) :
  (forall c, q c = true -> p c = false) -> PyStr.all q s = true -> last_kept p s = true.
Proof.
  intros Hqp. induction s as [|a r IH]; [reflexivity |].
  simpl. rewrite andb_true_iff. intros [Ha Hr].
  destruct r; [now rewrite (Hqp a Ha) | now apply IH].
Qed.

Lemma startswith_char (c a : ascii) (r : string) :
  PyStr.startswith (String c "") (String a r) = Ascii.eqb c a.
Proof.
  change (PyStr.startswith (String c "") (String a r))
    with (if Ascii.eqb c a then PyStr.startswith "" r else false).
  destruct (Ascii.eqb c a); [destruct r |]; reflexivity.
Qed.

Lemma split_no_sep (c : ascii) (s : string) :
  PyStr.contains c s = false -> PyStr.split c s = [s].
Proof.
  induction s as [|a r IH]; simpl; [reflexivity |].
  intros H. apply orb_false_iff in H as [-> Hr]. now rewrite (IH Hr).
Qed.

Lemma split_app_sep (c : ascii) (s t : string) :
  PyStr.contains c s = false ->
  PyStr.split c (s +:+ String c t) = s :: PyStr.split c t.
Proof.
  induction s as [|a r IH]; intros H.
  - rewrite append_nil_l. simpl. now rewrite Ascii.eqb_refl.
  - simpl in H. apply orb_false_iff in H as [Ha Hr].
    rewrite append_cons. simpl. now rewrite Ha, (IH Hr).
Qed.

Lemma join_cons (sep l l' : string) (ls : list string) :
  PyStr.join sep (l :: l' :: ls) = l +:+ sep +:+ PyStr.join sep (l' :: ls).
Proof. reflexivity. Qed.

Lemma split_join (c : ascii) (labels : list string) :
  labels <> [] ->
  Forall (fun l => PyStr.contains c l = false) labels ->
  PyStr.split c (PyStr.join (String c "") labels) = labels.
Proof.
  intros Hne Hall. induction Hall as [|l ls Hl Hls IH]; [now contradiction Hne |].
  destruct ls as [|l' ls].
  - simpl. now apply split_no_sep.
  - rewrite join_cons, append_cons, append_nil_l, (split_app_sep _ _ _ Hl).
    f_equal. now apply IH.
Qed.

Lemma all_join (p : ascii -> bool) (c : ascii) (labels : list string) :
  p c = true ->
  Forall (fun l => PyStr.all p l = true) labels ->
  PyStr.all p (PyStr.join (String c "") labels) = true.
Proof.
  intros Hc Hall. induction Hall as [|l ls Hl Hls IH]; [reflexivity |].
  destruct ls as [|l' ls]; [exact Hl |].
  rewrite join_cons, !all_app, Hl, IH. simpl. now rewrite Hc.
Qed.

Lemma join_first (sep : string) (a : ascii) (l : string) (ls : list string) :
  exists r, PyStr.join sep (String a l :: ls) = String a r.
Proof. destruct ls; simpl; eauto. Qed.

End StringFacts.

Section HostNames.

Lemma is_label_inv (l : string) :
  is_label l = true -> l <> "" /\ PyStr.all is_ldh l = true.
Proof.
  unfold is_label. rewrite andb_true_iff. intros [Ht Hall]. split; [| exact Hall].
  intros ->. discriminate Ht.
Qed.

Lemma label_no_dot (l : string) : is_label l = true -> PyStr.contains "." l = false.
Proof.
  intros H. apply is_label_inv in H as [_ Hall].
  apply (all_not_contains is_ldh); [exact Hall | reflexivity].
Qed.

Lemma last_kept_dot_join (labels : list string) :
  Forall (fun l => is_label l = true) labels ->
  last_kept (Ascii.eqb ".") (PyStr.join "." labels) = true.
Proof.
  intros Hall. induction Hall as [|l ls Hl Hls IH]; [reflexivity |].
  destruct ls as [|l' ls].
  - simpl. apply is_label_inv in Hl as [_ Hl].
    apply (last_kept_all _ is_ldh); [| exact Hl].
    intros c Hc. rewrite Ascii.eqb_sym. now apply ldh_not_dot.
  - rewrite join_cons. rewrite last_kept_app.
    + inversion Hls as [|? ? Hl' _]; subst.
      apply is_label_inv in Hl' as [Hne' _]. destruct l' as [|a' r']; [now contradiction Hne' |].
      destruct (join_first "." a' r' ls) as [r Hr]. rewrite Hr in IH |- *.
      rewrite append_cons, append_nil_l. exact IH.
    + rewrite append_cons. discriminate.
Qed.

(** On a host name behind [https://], [lenient_netloc] returns the host
    name. *)
Lemma lenient_netloc_https (host : string) :
  PyStr.all is_hostchar host = true ->
  host <> "" ->
  last_kept (Ascii.eqb ".") host = true ->
  tldextract.lenient_netloc ("https://" +:+ host) = host.
Proof.
  intros Hall Hne Hlast. unfold tldextract.lenient_netloc.
  change (tldextract.schemeless_url ("https://" +:+ host)) with host.
  assert (Hno : forall c, is_hostchar c = false -> PyStr.contains c host = false)
    by (intros c Hc; now apply (all_not_contains is_hostchar)).
  rewrite (before_id "/"), (before_id "?"), (before_id "#"), (after_last_id "@"),
    (before_id ":") by (apply Hno; reflexivity).
  destruct host as [|a r]; [now contradiction Hne |].
  simpl in Hall. apply andb_true_iff in Hall as [Ha Hr].
  pose proof (hostchar_not_sep a Ha) as (_ & _ & _ & _ & _ & Hbr).
  rewrite startswith_char, Ascii.eqb_sym, Hbr. cbn [andb].
  unfold PyStr.strip. rewrite lstrip_id by now apply hostchar_not_space.
  rewrite (rstrip_id PyStr.is_space).
  - unfold PyStr.rstrip_char. now apply rstrip_id.
  - apply (last_kept_all _ is_hostchar); [apply hostchar_not_space |].
    simpl. now rewrite Ha, Hr.
Qed.

End HostNames.

Section SuffixWalk.

Variable tlds : tldextract.Trie.
Variable decode_punycode : string -> string.

Abbreviation walk := (tldextract.suffix_walk decode_punycode).

(** The walk returns the index it was given or one of the labels it has
    looked at. *)
Lemma suffix_walk_range (rev_labels : list string) :
  forall node i j,
    j = List.length rev_labels -> (j <= i)%nat ->
    walk node rev_labels i j = i \/ (walk node rev_labels i j <= j)%nat.
Proof.
  induction rev_labels as [|label rest IH]; intros node i j Hj Hi; simpl; [now left |].
  simpl in Hj.
  destruct (tldextract.trie_get (decode_punycode label) (tldextract.trie_matches node))
    as [child|].
  - destruct (tldextract.trie_end child).
    + right. destruct (IH child (j - 1)%nat (j - 1)%nat) as [H | H]; lia.
    + destruct (IH child i (j - 1)%nat) as [H | H]; [lia | lia | now left | right; lia].
  - destruct (tldextract.trie_get "*" (tldextract.trie_matches node)); [| now left].
    right. destruct (tldextract.trie_get _ _); lia.
Qed.

(** Labels to the left of the domain label do not change where the suffix
    starts: dropping them shifts the index by their number. *)
Lemma suffix_walk_truncate (kept dropped : list string) :
  forall node i,
    (List.length (kept ++ dropped) <= i)%nat ->
    (List.length dropped < walk node (kept ++ dropped) i (List.length (kept ++ dropped)))%nat ->
    walk node kept (i - List.length dropped) (List.length kept)
    = (walk node (kept ++ dropped) i (List.length (kept ++ dropped)) - List.length dropped)%nat.
Proof.
  induction kept as [|label rest IH]; intros node i Hi Hlt.
  - simpl in *. destruct (suffix_walk_range dropped node i _ eq_refl Hi) as [-> | H]; [reflexivity | lia].
  - revert Hi Hlt. simpl. rewrite !Nat.sub_0_r. intros Hi Hlt.
    destruct (tldextract.trie_get (decode_punycode label) (tldextract.trie_matches node))
      as [child|].
    + destruct (tldextract.trie_end child).
      * specialize (IH child (List.length (rest ++ dropped)) (le_n _) Hlt).
        rewrite <- IH. f_equal. rewrite List.length_app. lia.
      * apply IH; [lia | exact Hlt].
    + destruct (tldextract.trie_get "*" (tldextract.trie_matches node)); [| reflexivity].
      rewrite List.length_app in *.
      destruct (tldextract.trie_get _ _); lia.
Qed.

Lemma suffix_index_truncate (labels : list string) (k : nat) :
  tldextract.suffix_index tlds decode_punycode labels = k ->
  (1 <= k)%nat -> (k < List.length labels)%nat ->
  tldextract.suffix_index tlds decode_punycode (skipn (k - 1) labels) = 1%nat.
Proof.
  unfold tldextract.suffix_index. intros Hk H1 Hn.
  rewrite <- (firstn_skipn (k - 1) labels) in Hk.
  rewrite List.rev_app_distr in Hk.
  assert (Hlen : List.length (rev (firstn (k - 1) labels)) = (k - 1)%nat)
    by (rewrite List.length_rev, List.length_firstn; lia).
  assert (Hlen' : List.length (rev (skipn (k - 1) labels) ++ rev (firstn (k - 1) labels))
                  = List.length labels)
    by (rewrite <- List.rev_app_distr, List.length_rev, firstn_skipn; reflexivity).
  rewrite (firstn_skipn (k - 1) labels) in Hk. rewrite <- Hlen' in Hk.
  pose proof (suffix_walk_truncate (rev (skipn (k - 1) labels)) (rev (firstn (k - 1) labels))
                tlds _ (le_n _)) as Ht.
  rewrite Hk, Hlen in Ht. specialize (Ht ltac:(lia)).
  rewrite Hlen', List.length_rev, List.length_skipn in Ht.
  rewrite List.length_skipn, Ht. lia.
Qed.

End SuffixWalk.

Section Idempotence.

Variable tlds : tldextract.Trie.
Variable decode_punycode : string -> string.
Variables looks_like_ip looks_like_ipv6 : string -> bool.

Abbreviation extract_netloc :=
  (tldextract.extract_netloc tlds decode_punycode looks_like_ip looks_like_ipv6).
Abbreviation suffix_index := (tldextract.suffix_index tlds decode_punycode).

Lemma skipn_nth (labels : list string) :
  forall n, (n < List.length labels)%nat ->
  skipn n labels = List.nth n labels "" :: skipn (S n) labels.
Proof.
  induction labels as [|l ls IH]; intros n Hn; simpl in Hn; [lia |].
  destruct n as [|n]; [reflexivity |]. simpl. apply IH. lia.
Qed.

(** A parse with a domain and a suffix comes from the suffix index, which
    then lies strictly inside the labels. *)
Lemma extract_netloc_recognised (netloc : string) :
  let labels := PyStr.split "." netloc in
  let k := suffix_index labels in
  tldextract.domain (extract_netloc netloc) <> "" ->
  tldextract.suffix (extract_netloc netloc) <> "" ->
  (1 <= k)%nat /\ (k < List.length labels)%nat
  /\ tldextract.domain (extract_netloc netloc) = List.nth (k - 1) labels ""
  /\ tldextract.suffix (extract_netloc netloc) = PyStr.join "." (skipn k labels).
Proof.
  intros labels k. unfold tldextract.extract_netloc. fold labels. fold k.
  destruct (_ && looks_like_ipv6 _); [simpl; intros _ H; exfalso; now apply H |].
  destruct (_ && looks_like_ip _); [simpl; intros _ H; exfalso; now apply H |].
  cbn [tldextract.domain tldextract.suffix].
  destruct (Nat.leb_spec 1 k) as [H1 | H1]; [| intros H; exfalso; now apply H].
  destruct (Nat.eqb_spec k (List.length labels)) as [Hk | Hk];
    [intros _ H; exfalso; now apply H |].
  intros _ Hs. repeat split; try assumption.
  destruct (Nat.lt_ge_cases k (List.length labels)) as [Hlt | Hge]; [exact Hlt |].
  rewrite List.skipn_all2 in Hs by exact Hge. now contradiction Hs.
Qed.

(** The registered domain of a host name, parsed again, is its own
    registered domain. *)
Lemma extract_netloc_registered (labels : list string) (k : nat) :
  Forall (fun l => is_label l = true) labels ->
  suffix_index labels = k ->
  (1 <= k)%nat -> (k < List.length labels)%nat ->
  extract_netloc (PyStr.join "." (skipn (k - 1) labels))
  = {| tldextract.subdomain := "";
       tldextract.domain := List.nth (k - 1) labels "";
       tldextract.suffix := PyStr.join "." (skipn k labels) |}.
Proof.
  intros Hall Hk H1 Hn.
  pose proof (suffix_index_truncate tlds decode_punycode labels k Hk H1 Hn) as Hone.
  assert (Hsplit : skipn (k - 1) labels = List.nth (k - 1) labels "" :: skipn k labels).
  { rewrite (skipn_nth labels (k - 1)) by lia. do 2 f_equal. lia. }
  assert (Hkept : Forall (fun l => is_label l = true) (skipn (k - 1) labels)).
  { rewrite <- (firstn_skipn (k - 1) labels) in Hall. now apply Forall_app in Hall as [_ H]. }
  assert (Hlen : (2 <= List.length (skipn (k - 1) labels))%nat)
    by (rewrite List.length_skipn; lia).
  unfold tldextract.extract_netloc.
  rewrite split_join.
  - rewrite Hone.
    assert (Hhead : PyStr.startswith "[" (PyStr.join "." (skipn (k - 1) labels)) = false).
    { rewrite Hsplit in Hkept |- *. apply List.Forall_cons_iff in Hkept as [Hd _].
      apply is_label_inv in Hd as [Hne Hldh].
      destruct (List.nth (k - 1) labels "") as [|a r]; [now contradiction Hne |].
      destruct (join_first "." a r (skipn k labels)) as [r' ->].
      simpl in Hldh. apply andb_true_iff in Hldh as [Ha _].
      pose proof (hostchar_not_sep a (ldh_hostchar a Ha)) as (_ & _ & _ & _ & _ & Hbr).
      now rewrite startswith_char, Ascii.eqb_sym, Hbr. }
    rewrite Hhead, andb_false_r. cbn [andb].
    destruct (Nat.eqb_spec 1 (List.length (skipn (k - 1) labels))) as [E | _]; [lia |].
    cbn [andb Nat.leb Nat.sub]. rewrite Hsplit. reflexivity.
  - intros E. rewrite E in Hlen. simpl in Hlen. lia.
  - eapply Forall_impl; [exact Hkept |]. intros l Hl. now apply label_no_dot.
Qed.

End Idempotence.

(** C6: with the library computing by its suffix-list algorithm, over any
    suffix list, [extract_domain_udf] is a function of the URL, so two
    runs agree; and for a valid URL in which it recognises a registered
    domain [d], resolving [https://d] gives [d] again. *)
Theorem extract_domain_udf_idempotent (L : Libs) (tlds : tldextract.Trie)
    (decode_punycode : string -> string) (looks_like_ip looks_like_ipv6 : string -> bool)
    (u d : string) :
  (forall v, tldextract_extract v
             = inr (tldextract.extract tlds decode_punycode looks_like_ip looks_like_ipv6 v)) ->
  valid_url u = true ->
  extract_domain_udf (Some u) = Ok (Some d) ->
  extract_domain_udf (Some ("https://" +:+ d)) = Ok (Some d)
  /\ (forall r1 r2, r1 = extract_domain_udf (Some u) -> r2 = extract_domain_udf (Some u) ->
      r1 = r2).
Proof.
  intros Hlib Hvalid Hd. split; [| intros r1 r2 -> ->; reflexivity].
  unfold valid_url in Hvalid. rewrite forallb_forall in Hvalid.
  assert (Hall : Forall (fun l => is_label l = true)
                   (PyStr.split "." (tldextract.lenient_netloc u)))
    by (apply List.Forall_forall; exact Hvalid).
  set (netloc := tldextract.lenient_netloc u) in *.
  set (labels := PyStr.split "." netloc) in *.
  set (x := tldextract.extract_netloc tlds decode_punycode looks_like_ip looks_like_ipv6 netloc).
  assert (Hparts : tldextract.domain x <> "" /\ tldextract.suffix x <> ""
                   /\ d = tldextract.domain x +:+ "." +:+ tldextract.suffix x).
  { unfold extract_domain_udf in Hd. rewrite Hlib in Hd. unfold tldextract.extract in Hd.
    fold netloc in Hd. fold x in Hd.
    destruct (tldextract.domain x); [discriminate Hd |].
    destruct (tldextract.suffix x); [discriminate Hd |].
    simpl in Hd. injection Hd as <-. repeat split; discriminate. }
  destruct Hparts as (Hdom & Hsuf & ->).
  destruct (extract_netloc_recognised tlds decode_punycode looks_like_ip looks_like_ipv6
              netloc Hdom Hsuf) as (H1 & Hn & Edom & Esuf).
  fold labels in H1, Hn, Edom, Esuf. fold x in Edom, Esuf.
  set (k := tldextract.suffix_index tlds decode_punycode labels) in *.
  assert (Hsplit : skipn (k - 1) labels = List.nth (k - 1) labels "" :: skipn k labels).
  { rewrite (skipn_nth labels (k - 1)) by lia. do 2 f_equal. lia. }
  assert (Hjoin : tldextract.domain x +:+ "." +:+ tldextract.suffix x
                  = PyStr.join "." (skipn (k - 1) labels)).
  { rewrite Hsplit, Edom, Esuf.
    destruct (skipn k labels) as [|l' ls] eqn:E; [| reflexivity].
    apply (f_equal (@List.length string)) in E. rewrite List.length_skipn in E.
    simpl in E. lia. }
  assert (Hkept : Forall (fun l => is_label l = true) (skipn (k - 1) labels)).
  { rewrite <- (firstn_skipn (k - 1) labels) in Hall. now apply Forall_app in Hall as [_ H]. }
  assert (Hagain :
            tldextract.extract tlds decode_punycode looks_like_ip looks_like_ipv6
              ("https://" +:+ tldextract.domain x +:+ "." +:+ tldextract.suffix x)
            = {| tldextract.subdomain := "";
                 tldextract.domain := tldextract.domain x;
                 tldextract.suffix := tldextract.suffix x |}).
  { unfold tldextract.extract. rewrite Hjoin, lenient_netloc_https.
    - rewrite (extract_netloc_registered tlds decode_punycode looks_like_ip looks_like_ipv6
                 labels k Hall eq_refl H1 Hn).
      now rewrite <- Edom, <- Esuf.
    - apply all_join; [reflexivity |].
      eapply Forall_impl; [exact Hkept |]. intros l Hl.
      apply is_label_inv in Hl as [_ Hl].
      apply (all_impl is_ldh); [apply ldh_hostchar | exact Hl].
    - rewrite Hsplit in Hkept |- *. apply List.Forall_cons_iff in Hkept as [Hl _].
      apply is_label_inv in Hl as [Hne _].
      destruct (List.nth (k - 1) labels "") as [|a r]; [now contradiction Hne |].
      destruct (join_first "." a r (skipn k labels)) as [r' ->]. discriminate.
    - now apply last_kept_dot_join. }
  unfold extract_domain_udf. rewrite Hlib, Hagain.
  cbn [tldextract.domain tldextract.suffix].
  destruct (tldextract.domain x); [now contradiction Hdom |].
  destruct (tldextract.suffix x); [now contradiction Hsuf |].
  reflexivity.
Qed.

Lemma extract_domain_udf_idempotent_witness :
  extract_domain_udf (L := Ref.libs) (Some "https://example.co.uk") = Ok (Some "example.co.uk").
Proof.
  apply (proj1 (extract_domain_udf_idempotent Ref.libs Ref.tlds PyStr.lower
                  Ref.looks_like_ip Ref.looks_like_ipv6
                  "https://sub.example.co.uk/page" "example.co.uk"
                  (fun v => eq_refl) ltac:(vm_compute; reflexivity)
                  ltac:(vm_compute; reflexivity))).
Defined.

(** * Further properties of the program *)

(** ** The publisher, path by path *)

Section Publisher.

Context {L : Libs}.

(** What [upload_to_hf] does in every world, by the outcome of the two
    calls to the hub. *)
Lemma upload_to_hf_outcome (args : Namespace) (path : string) (w : World) :
  let batch := PyStr.of_Z (batch_num args) in
  let repo_id := repo_id_of args in
  let path_in_repo := "data/" +:+ os_path_basename path in
  let message := "Add extracted inner URLs batch " +:+ hf_base_dataset_name args +:+
                 " batch " +:+ batch in
  let pushing := (INFO, "Pushing file " +:+ path +:+ " (batch " +:+ batch +:+
                        ") to HuggingFace Hub.") in
  let target := (INFO, "Target Hugging Face repository ID: " +:+ repo_id) in
  let failed e := (ERROR, "Hugging Face upload failed for batch " +:+ batch +:+ " (" +:+
                          path +:+ "): " +:+ str_of_exception e) in
  upload_to_hf args path w =
  match fs w !! path with
  | None =>
      (Ok tt, {| fs := fs w; hub := hub w;
                 logs := logs w ++ [(ERROR, "Parquet file " +:+ path +:+
                                     " not found for Hugging Face upload. Skipping upload.")];
                 trace := trace w |})
  | Some c =>
      match hf_create_repo repo_id (hub w) with
      | (Some e, h1) =>
          (Raise (Exc e),
           {| fs := fs w; hub := h1; logs := logs w ++ [pushing; target; failed e];
              trace := trace w ++ [EvCreateRepo repo_id] |})
      | (None, h1) =>
          match hf_upload_file (Some c) path_in_repo repo_id message h1 with
          | (Some e, h2) =>
              (Raise (Exc e),
               {| fs := fs w; hub := h2; logs := logs w ++ [pushing; target; failed e];
                  trace := trace w ++ [EvCreateRepo repo_id;
                                       EvUploadFile path path_in_repo repo_id] |})
          | (None, h2) =>
              (Ok tt,
               {| fs := fs w; hub := h2;
                  logs := logs w ++
                    [pushing; target;
                     (INFO, "Successfully uploaded batch " +:+ batch +:+
                            " to Hugging Face repo " +:+ repo_id +:+ " as " +:+ path_in_repo)];
                  trace := trace w ++ [EvCreateRepo repo_id;
                                       EvUploadFile path path_in_repo repo_id] |})
          end
      end
  end.
Proof.
  intros batch repo_id path_in_repo message pushing target failed.
  unfold upload_to_hf, try_except, os_path_exists, api_create_repo, api_upload_file,
    bind, emit, get_world, set_hub, lift, raise, logger_error, logger_info, logger_log.
  fold batch. fold repo_id. fold path_in_repo. fold message.
  subst pushing target failed. clearbody message. clearbody batch repo_id path_in_repo.
  destruct (fs w !! path) as [c|] eqn:Hfile.
  - rewrite bool_decide_eq_true_2 by eauto. cbn -[String.append].
    destruct (hf_create_repo repo_id (hub w)) as [[e|] h1]; cbn -[String.append].
    + now rewrite <- !List.app_assoc.
    + rewrite Hfile.
      destruct (hf_upload_file (Some c) path_in_repo repo_id message h1) as [[e|] h2];
        cbn -[String.append]; now rewrite <- !List.app_assoc.
  - rewrite bool_decide_eq_false_2 by (intros [c Hc]; discriminate). reflexivity.
Qed.

End Publisher.

(** X1: when the file exists and the hub accepts both calls,
    [upload_to_hf] returns normally; the repository is created first and
    the file is then uploaded under [data/] and its base name; the local
    file system is untouched and only [INFO] records are logged. *)
Theorem upload_to_hf_publishes (L : Libs) (args : Namespace) (path : string) (w : World)
    (c : FileContent) (h1 h2 : gmap string (list Commit)) :
  fs w !! path = Some c ->
  hf_create_repo (repo_id_of args) (hub w) = (None, h1) ->
  hf_upload_file (Some c) ("data/" +:+ os_path_basename path) (repo_id_of args)
    ("Add extracted inner URLs batch " +:+ hf_base_dataset_name args +:+
     " batch " +:+ PyStr.of_Z (batch_num args)) h1 = (None, h2) ->
  exists w' records,
    upload_to_hf args path w = (Ok tt, w')
    /\ fs w' = fs w
    /\ hub w' = h2
    /\ trace w' = trace w ++
         [EvCreateRepo (repo_id_of args);
          EvUploadFile path ("data/" +:+ os_path_basename path) (repo_id_of args)]
    /\ logs w' = logs w ++ records
    /\ Forall (fun record => fst record = INFO) records.
Proof.
  intros Hfile Hcreate Hupload. rewrite upload_to_hf_outcome, Hfile, Hcreate, Hupload.
  eexists _, _. repeat split. repeat constructor.
Qed.

Lemma upload_to_hf_publishes_witness :
  fst (upload_to_hf (L := Ref.libs) Scenario.args Scenario.output_parquet_file Cases.exported)
  = Ok tt.
Proof.
  destruct (upload_to_hf_publishes Ref.libs Scenario.args Scenario.output_parquet_file
              Cases.exported
              (Parquet [(Some "https://sub.example.co.uk/page", Some "example.co.uk")] true)
              (snd (Ref.create_repo (repo_id_of Scenario.args) ∅))
              (snd (Ref.upload_file
                      (Some (Parquet [(Some "https://sub.example.co.uk/page",
                                       Some "example.co.uk")] true))
                      ("data/" +:+ os_path_basename Scenario.output_parquet_file)
                      (repo_id_of Scenario.args)
                      ("Add extracted inner URLs batch " +:+
                       hf_base_dataset_name Scenario.args +:+ " batch " +:+
                       PyStr.of_Z (batch_num Scenario.args))
                      (snd (Ref.create_repo (repo_id_of Scenario.args) ∅))))
              ltac:(vm_compute; reflexivity) ltac:(vm_compute; reflexivity)
              ltac:(vm_compute; reflexivity))
    as (w' & records & -> & _).
  reflexivity.
Defined.

(** X2: when [create_repo] raises, [upload_to_hf] re-raises that error
    without calling [upload_file]; the failure is the last record of the
    log, at level [ERROR], and the local file system is untouched. *)
Theorem upload_to_hf_create_repo_fails (L : Libs) (args : Namespace) (path : string)
    (w : World) (c : FileContent) (e : Exception) (h1 : gmap string (list Commit)) :
  fs w !! path = Some c ->
  hf_create_repo (repo_id_of args) (hub w) = (Some e, h1) ->
  exists w' records,
    upload_to_hf args path w = (Raise (Exc e), w')
    /\ fs w' = fs w
    /\ hub w' = h1
    /\ trace w' = trace w ++ [EvCreateRepo (repo_id_of args)]
    /\ logs w' = logs w ++ records ++
         [(ERROR, "Hugging Face upload failed for batch " +:+ PyStr.of_Z (batch_num args)
                  +:+ " (" +:+ path +:+ "): " +:+ str_of_exception e)].
Proof.
  intros Hfile Hcreate. rewrite upload_to_hf_outcome, Hfile, Hcreate.
  eexists _, [_; _]. repeat split.
Qed.

Lemma upload_to_hf_create_repo_fails_witness :
  fst (upload_to_hf (L := Cases.libs_create_denied) Scenario.args
         Scenario.output_parquet_file Cases.exported)
  = Raise (Exc (LibraryError "huggingface_hub" "401 Unauthorized")).
Proof.
  destruct (upload_to_hf_create_repo_fails Cases.libs_create_denied Scenario.args
              Scenario.output_parquet_file Cases.exported
              (Parquet [(Some "https://sub.example.co.uk/page", Some "example.co.uk")] true)
              (LibraryError "huggingface_hub" "401 Unauthorized") ∅
              ltac:(vm_compute; reflexivity) ltac:(vm_compute; reflexivity))
    as (w' & records & -> & _).
  reflexivity.
Defined.

(** X3: when [upload_file] raises after the repository was created,
    [upload_to_hf] re-raises that error and logs it at level [ERROR]; the
    local file is still in place. *)
Theorem upload_to_hf_upload_file_fails (L : Libs) (args : Namespace) (path : string)
    (w : World) (c : FileContent) (e : Exception) (h1 h2 : gmap string (list Commit)) :
  fs w !! path = Some c ->
  hf_create_repo (repo_id_of args) (hub w) = (None, h1) ->
  hf_upload_file (Some c) ("data/" +:+ os_path_basename path) (repo_id_of args)
    ("Add extracted inner URLs batch " +:+ hf_base_dataset_name args +:+
     " batch " +:+ PyStr.of_Z (batch_num args)) h1 = (Some e, h2) ->
  exists w' records,
    upload_to_hf args path w = (Raise (Exc e), w')
    /\ fs w' !! path = Some c
    /\ hub w' = h2
    /\ trace w' = trace w ++
         [EvCreateRepo (repo_id_of args);
          EvUploadFile path ("data/" +:+ os_path_basename path) (repo_id_of args)]
    /\ logs w' = logs w ++ records ++
         [(ERROR, "Hugging Face upload failed for batch " +:+ PyStr.of_Z (batch_num args)
                  +:+ " (" +:+ path +:+ "): " +:+ str_of_exception e)].
Proof.
  intros Hfile Hcreate Hupload. rewrite upload_to_hf_outcome, Hfile, Hcreate, Hupload.
  eexists _, [_; _]. repeat split. exact Hfile.
Qed.

Lemma upload_to_hf_upload_file_fails_witness :
  fst (upload_to_hf (L := Cases.libs_upload_broken) Scenario.args
         Scenario.output_parquet_file Cases.exported)
  = Raise (Exc (LibraryError "huggingface_hub" "Connection reset")).
Proof.
  destruct (upload_to_hf_upload_file_fails Cases.libs_upload_broken Scenario.args
              Scenario.output_parquet_file Cases.exported
              (Parquet [(Some "https://sub.example.co.uk/page", Some "example.co.uk")] true)
              (LibraryError "huggingface_hub" "Connection reset")
              (snd (Ref.create_repo (repo_id_of Scenario.args) ∅))
              (snd (Ref.create_repo (repo_id_of Scenario.args) ∅))
              ltac:(vm_compute; reflexivity) ltac:(vm_compute; reflexivity)
              ltac:(vm_compute; reflexivity))
    as (w' & records & -> & _).
  reflexivity.
Defined.

(** X4: whatever the libraries do, [upload_to_hf] leaves the local file
    system as it is, makes no call but [create_repo] followed by
    [upload_file] (it never uploads without having created the repository),
    and raises nothing but [Exception]s. *)
Theorem upload_to_hf_effects (L : Libs) (args : Namespace) (path : string) (w : World) :
  fs (snd (upload_to_hf args path w)) = fs w
  /\ (exists n,
        trace (snd (upload_to_hf args path w))
        = trace w ++
            firstn n [EvCreateRepo (repo_id_of args);
                      EvUploadFile path ("data/" +:+ os_path_basename path)
                        (repo_id_of args)])
  /\ (forall code, fst (upload_to_hf args path w) <> Raise (SystemExit code)).
Proof.
  rewrite upload_to_hf_outcome.
  destruct (fs w !! path) as [c|].
  - destruct (hf_create_repo _ _) as [[e|] h1].
    + split; [reflexivity |]. split; [now exists 1%nat | discriminate].
    + destruct (hf_upload_file _ _ _ _ _) as [[e|] h2];
        (split; [reflexivity |]; split; [now exists 2%nat | discriminate]).
  - split; [reflexivity |]. split; [| discriminate].
    exists 0%nat. simpl. now rewrite app_nil_r.
Qed.

(** ** The repository identifier and the published path *)

Section Cleanup.

Lemma endswith_last_kept (c : ascii) (s : string) :
  PyStr.endswith c s = negb (last_kept (Ascii.eqb c) s).
Proof.
  induction s as [|a r IH]; [reflexivity |].
  destruct r as [|b r']; [| exact IH].
  simpl. now rewrite negb_involutive, Ascii.eqb_sym.
Qed.

Lemma rstrip_last_kept (p : ascii -> bool) (s : string) :
  last_kept p (PyStr.rstrip p s) = true.
Proof.
  induction s as [|a r IH]; [reflexivity |].
  simpl. destruct (PyStr.rstrip p r) as [|b r'] eqn:E.
  - destruct (p a) eqn:Ha; simpl; [reflexivity | now rewrite Ha].
  - exact IH.
Qed.

Lemma rstrip_head (p : ascii -> bool) (a : ascii) (r : string) :
  p a = false -> exists r', PyStr.rstrip p (String a r) = String a r'.
Proof.
  intros Ha. simpl. destruct (PyStr.rstrip p r); [rewrite Ha |]; eauto.
Qed.

Lemma lstrip_head (p : ascii -> bool) (s : string) :
  PyStr.lstrip p s = "" \/ exists a r, PyStr.lstrip p s = String a r /\ p a = false.
Proof.
  induction s as [|a r IH]; [now left |].
  simpl. destruct (p a) eqn:Ha; [exact IH | right; eauto].
Qed.

(** Stripping a character leaves it at neither end. *)
Lemma strip_char_edges (c : ascii) (s : string) :
  PyStr.startswith (String c "") (PyStr.strip_char c s) = false
  /\ PyStr.endswith c (PyStr.strip_char c s) = false.
Proof.
  unfold PyStr.strip_char, PyStr.strip. split.
  - destruct (lstrip_head (Ascii.eqb c) s) as [-> | (a & r & -> & Ha)]; [reflexivity |].
    destruct (rstrip_head (Ascii.eqb c) a r Ha) as [r' ->].
    now rewrite startswith_char.
  - now rewrite endswith_last_kept, rstrip_last_kept.
Qed.

Lemma replace_no_double (s : string) :
  no_double "_" s = true -> PyStr.replace "__" "_" s = s.
Proof.
  unfold PyStr.replace. induction s as [|a r IH]; [reflexivity |].
  intros H.
  change (no_double "_" (String a r))
    with (negb (Ascii.eqb a "_" && PyStr.startswith "_" r) && no_double "_" r) in H.
  apply andb_true_iff in H as [Hhead Hrest].
  change (PyStr.replace_from "__" "_" 0 (String a r))
    with (if PyStr.startswith "__" (String a r)
          then "_" +:+ PyStr.replace_from "__" "_" 1 r
          else String a (PyStr.replace_from "__" "_" 0 r)).
  change (PyStr.startswith "__" (String a r))
    with (if Ascii.eqb "_" a then PyStr.startswith "_" r else false).
  rewrite Ascii.eqb_sym.
  destruct (Ascii.eqb a "_"); cbn [andb] in Hhead.
  - apply negb_true_iff in Hhead. rewrite Hhead. now rewrite (IH Hrest).
  - now rewrite (IH Hrest).
Qed.

Lemma no_double_app (c : ascii) (s t : string) :
  no_double c (s +:+ t)
  = no_double c s && no_double c t
    && negb (PyStr.endswith c s && PyStr.startswith (String c "") t).
Proof.
  induction s as [|a r IH].
  - rewrite append_nil_l. simpl. now rewrite andb_true_r.
  - rewrite append_cons.
    change (no_double c (String a (r +:+ t)))
      with (negb (Ascii.eqb a c && PyStr.startswith (String c "") (r +:+ t))
            && no_double c (r +:+ t)).
    change (no_double c (String a r))
      with (negb (Ascii.eqb a c && PyStr.startswith (String c "") r) && no_double c r).
    rewrite IH. clear IH. destruct r as [|b r'].
    + rewrite append_nil_l.
      change (PyStr.endswith c (String a "")) with (Ascii.eqb a c).
      change (PyStr.endswith c "") with false.
      change (PyStr.startswith (String c "") "") with false.
      change (no_double c "") with true.
      generalize (PyStr.startswith (String c "") t) (no_double c t) (Ascii.eqb a c).
      intros [] [] []; reflexivity.
    + rewrite append_cons, !startswith_char.
      change (PyStr.endswith c (String a (String b r')))
        with (PyStr.endswith c (String b r')).
      generalize (Ascii.eqb a c) (Ascii.eqb c b) (no_double c (String b r'))
        (no_double c t) (PyStr.endswith c (String b r'))
        (PyStr.startswith (String c "") t).
      intros [] [] [] [] [] []; reflexivity.
Qed.

Lemma tidy_inv (s : string) :
  tidy s = true ->
  s <> "" /\ PyStr.startswith "_" s = false /\ PyStr.endswith "_" s = false
  /\ no_double "_" s = true.
Proof.
  unfold tidy. rewrite !andb_true_iff, !negb_true_iff.
  intros [[[Ht Hs] He] Hd]. repeat split; try assumption.
  intros ->. discriminate Ht.
Qed.

Lemma tidy_join (parts : list string) :
  parts <> [] ->
  Forall (fun p => tidy p = true) parts ->
  tidy (PyStr.join "_" parts) = true.
Proof.
  intros Hne Hall. induction Hall as [|l ls Hl Hls IH]; [now contradiction Hne |].
  destruct ls as [|l' ls]; [exact Hl |].
  specialize (IH ltac:(discriminate)).
  rewrite join_cons. set (J := PyStr.join "_" (l' :: ls)) in *.
  apply tidy_inv in Hl as (Hl0 & Hl1 & Hl2 & Hl3).
  apply tidy_inv in IH as (HJ0 & HJ1 & HJ2 & HJ3).
  destruct l as [|a l0]; [now contradiction Hl0 |].
  destruct J as [|b J0]; [now contradiction HJ0 |].
  unfold tidy. rewrite !andb_true_iff, !negb_true_iff. repeat split.
  - rewrite append_cons, startswith_char. now rewrite startswith_char in Hl1.
  - rewrite endswith_last_kept, last_kept_app by (rewrite append_cons; discriminate).
    rewrite append_cons, append_nil_l.
    change (last_kept (Ascii.eqb "_") (String "_" (String b J0)))
      with (last_kept (Ascii.eqb "_") (String b J0)).
    now rewrite <- endswith_last_kept.
  - rewrite no_double_app, Hl3, Hl2. rewrite append_cons, append_nil_l.
    change (no_double "_" (String "_" (String b J0)))
      with (negb (Ascii.eqb "_" "_" && PyStr.startswith "_" (String b J0))
            && no_double "_" (String b J0)).
    now rewrite HJ1, HJ3.
Qed.

End Cleanup.

(** X5: the repository identifier never begins and never ends with an
    underscore, whatever the account, the base name and the variant. *)
Theorem repo_id_of_edges (args : Namespace) :
  PyStr.startswith "_" (repo_id_of args) = false
  /\ PyStr.endswith "_" (repo_id_of args) = false.
Proof. unfold repo_id_of. apply strip_char_edges. Qed.

(** X6: when every part of the identifier is tidy (not empty, no
    underscore at either end, no doubled underscore), the clean-up changes
    nothing: the identifier is the parts joined by underscores. *)
Theorem repo_id_of_tidy_parts (args : Namespace) :
  Forall (fun p => tidy p = true) (repo_id_parts args) ->
  repo_id_of args = PyStr.join "_" (repo_id_parts args).
Proof.
  intros Hall. unfold repo_id_of.
  assert (Ht : tidy (PyStr.join "_" (repo_id_parts args)) = true)
    by (apply tidy_join; [unfold repo_id_parts; discriminate | exact Hall]).
  apply tidy_inv in Ht as (H0 & H1 & H2 & H3).
  rewrite (replace_no_double _ H3).
  destruct (PyStr.join "_" (repo_id_parts args)) as [|a r] eqn:E; [now contradiction H0 |].
  unfold PyStr.strip_char, PyStr.strip.
  rewrite startswith_char in H1. rewrite lstrip_id by exact H1.
  apply rstrip_id. rewrite endswith_last_kept in H2. now apply negb_false_iff in H2.
Qed.

Lemma repo_id_of_tidy_parts_witness :
  repo_id_of Scenario.args = "alice_dolma_extracted_inner_urls".
Proof.
  rewrite (repo_id_of_tidy_parts Scenario.args); [reflexivity |].
  repeat constructor.
Defined.

Section Paths.

Lemma contains_app (c : ascii) (s t : string) :
  PyStr.contains c (s +:+ t) = PyStr.contains c s || PyStr.contains c t.
Proof.
  induction s as [|a r IH]; [reflexivity |].
  rewrite append_cons. simpl. now rewrite IH, orb_assoc.
Qed.

Lemma uint_no_slash (d : Decimal.uint) :
  PyStr.contains "/" (NilEmpty.string_of_uint d) = false.
Proof. induction d; simpl; auto. Qed.

(** [str(n)] is made of digits and a sign. *)
Lemma of_Z_no_slash (n : Z) : PyStr.contains "/" (PyStr.of_Z n) = false.
Proof.
  unfold PyStr.of_Z, NilZero.string_of_int, NilZero.string_of_uint.
  destruct (Z.to_int n) as [d | d].
  - destruct d; try reflexivity; apply (uint_no_slash (_ d)).
  - change (PyStr.contains "/" (String "-" ?s)) with (PyStr.contains "/" s).
    destruct d; try reflexivity; apply (uint_no_slash (_ d)).
Qed.

(** The base name of a path has no slash in it. *)
Lemma basename_no_slash (p : string) :
  PyStr.contains "/" (os_path_basename p) = false.
Proof.
  unfold os_path_basename. induction p as [|a r IH]; [reflexivity |].
  simpl. destruct (PyStr.contains "/" r) eqn:Hr; [exact IH |].
  destruct (Ascii.eqb a "/") eqn:Ha; [exact Hr |].
  simpl. now rewrite Ha, Hr.
Qed.

Lemma after_last_app_sep (c : ascii) (s t : string) :
  PyStr.contains c t = false -> PyStr.after_last c (s +:+ String c t) = t.
Proof.
  intros Ht. induction s as [|a r IH].
  - rewrite append_nil_l. simpl. now rewrite Ht, Ascii.eqb_refl.
  - rewrite append_cons. simpl.
    rewrite contains_app. simpl. rewrite Ascii.eqb_refl, orb_true_r. exact IH.
Qed.

Lemma endswith_split (c : ascii) (s : string) :
  PyStr.endswith c s = true -> exists s', s = s' +:+ String c "".
Proof.
  induction s as [|a r IH]; [discriminate |].
  destruct r as [|b r'].
  - simpl. intros H. apply Ascii.eqb_eq in H as ->. now exists "".
  - intros H. destruct (IH H) as [s' Hs']. exists (String a s').
    rewrite append_cons. now rewrite <- Hs'.
Qed.

Lemma append_assoc (s t u : string) : (s +:+ t) +:+ u = s +:+ (t +:+ u).
Proof. induction s as [|a r IH]; [reflexivity |]. rewrite !append_cons. now rewrite IH. Qed.

(** Joining a directory and a file name, then taking the base name, gives
    the file name back. *)
Lemma basename_join (dir file : string) :
  PyStr.contains "/" file = false ->
  os_path_basename (os_path_join dir file) = file.
Proof.
  intros Hfile. unfold os_path_basename, os_path_join.
  assert (Hstart : PyStr.startswith "/" file = false).
  { destruct file as [|a r]; [reflexivity |]. rewrite startswith_char, Ascii.eqb_sym.
    simpl in Hfile. now apply orb_false_iff in Hfile as [-> _]. }
  rewrite Hstart. destruct dir as [|a r]; [now apply after_last_id |].
  destruct (PyStr.endswith "/" (String a r)) eqn:Hend.
  - destruct (endswith_split _ _ Hend) as [s' ->].
    rewrite append_assoc, append_cons, append_nil_l. now apply after_last_app_sep.
  - change ("/" +:+ file) with (String "/" file). now apply after_last_app_sep.
Qed.

End Paths.

(** X7: when the base name of the data set has no slash in it, the file
    that [main] names for the batch is published at
    [data/{base}_extracted_inner_urls_batch_{n}.parquet], whatever the
    output directory is. *)
Theorem published_path_of_batch (args : Namespace) :
  PyStr.contains "/" (hf_base_dataset_name args) = false ->
  "data/" +:+ os_path_basename (os_path_join (output_dir args) (output_file_name args))
  = "data/" +:+ hf_base_dataset_name args +:+ "_extracted_inner_urls_batch_" +:+
    PyStr.of_Z (batch_num args) +:+ ".parquet".
Proof.
  intros Hbase. rewrite basename_join; [reflexivity |].
  unfold output_file_name. rewrite !contains_app, Hbase, of_Z_no_slash. reflexivity.
Qed.

Lemma published_path_of_batch_witness :
  "data/" +:+ os_path_basename Scenario.output_parquet_file
  = "data/dolma_extracted_inner_urls_extracted_inner_urls_batch_7.parquet".
Proof.
  apply (published_path_of_batch Scenario.args). vm_compute. reflexivity.
Defined.

(** ** The [try] statement of [main], path by path *)

Section Processing.

Context {L : Libs}.

(** [",".join] succeeds on strings only; otherwise it raises a
    [TypeError]. *)
Lemma str_items_outcome (items : list pyval) :
  (exists paths, items = List.map PStr paths /\ str_items items = Ok paths)
  \/ (exists msg, str_items items = Raise (Exc (TypeError msg))
                  /\ Exists (fun item => forall s, item <> PStr s) items).
Proof.
  induction items as [|item items IH]; [left; now exists [] |].
  destruct item as [| s | n].
  - right. eexists. split; [reflexivity |]. left. discriminate.
  - destruct IH as [(paths & -> & Hok) | (msg & Hraise & Hex)].
    + left. exists (s :: paths). split; [reflexivity |]. simpl. now rewrite Hok.
    + right. exists msg. split; [simpl; now rewrite Hraise | now right].
  - right. eexists. split; [reflexivity |]. left. discriminate.
Qed.

(** What the body of the [try] statement does in every world, by the
    outcome of the calls to the libraries. *)
Lemma main_try_body_outcome (args : Namespace) (out : string) (w : World) :
  let opened := {| fs := fs w; hub := hub w; logs := logs w;
                   trace := trace w ++ [EvConnect] |} in
  let read := {| fs := fs w; hub := hub w; logs := logs w;
                 trace := trace w ++ [EvConnect; EvReadCsv (manifest_file args)] |} in
  main_try_body args out w =
  match duckdb_connect with
  | Some e => (Raise (Exc e), opened)
  | None =>
  match duckdb_create_function "extract_domain" "SCALAR" with
  | Some e => (Raise (Exc e), opened)
  | None =>
  match pd_read_csv (manifest_file args) (fs w) with
  | inl e => (Raise (Exc e), read)
  | inr manifest_df =>
  match duckdb_fetch_column manifest_df with
  | inl e => (Raise (Exc e), read)
  | inr cells =>
      match str_items cells with
      | Raise e => (Raise e, read)
      | Ok fpaths =>
          let files := "[" +:+ PyStr.join "," fpaths +:+ "]" in
          let scanned := {| fs := fs w; hub := hub w; logs := logs w;
                            trace := trace w ++ [EvConnect; EvReadCsv (manifest_file args);
                                                 EvReadJson files] |} in
          match duckdb_read_json files (fs w) with
          | inl e => (Raise (Exc e), scanned)
          | inr table =>
              match extraction_query table with
              | Raise e => (Raise e, scanned)
              | Ok rows =>
                  let events := [EvConnect; EvReadCsv (manifest_file args);
                                 EvReadJson files; EvCopyTo out] in
                  match duckdb_copy_to rows out (fs w) with
                  | (Some e, disk) =>
                      (Raise (Exc e), {| fs := disk; hub := hub w; logs := logs w;
                                         trace := trace w ++ events |})
                  | (None, disk) =>
                      (Ok tt,
                       {| fs := disk; hub := hub w;
                          logs := logs w ++
                            [(INFO, "Successfully processed downloaded JSONs for batch " +:+
                                    PyStr.of_Z (batch_num args) +:+
                                    ", extracted inner URLs, and saved to " +:+ out)];
                          trace := trace w ++ events |})
                  end
              end
          end
      end
  end end end end.
Proof.
  intros opened read. subst opened read.
  unfold main_try_body, read_csv, execute_copy, bind, emit, get_world, lift, set_fs,
    logger_debug, logger_info, logger_log. cbn -[String.append PyStr.join extraction_query].
  destruct duckdb_connect as [e|]; cbn -[String.append PyStr.join extraction_query];
    [reflexivity |].
  destruct (duckdb_create_function _ _) as [e|];
    cbn -[String.append PyStr.join extraction_query]; [reflexivity |].
  destruct (pd_read_csv _ _) as [e | df]; cbn -[String.append PyStr.join extraction_query];
    [now rewrite <- !List.app_assoc |].
  destruct (duckdb_fetch_column df) as [e | cells];
    cbn -[String.append PyStr.join extraction_query]; [now rewrite <- !List.app_assoc |].
  destruct (str_items _) as [paths | e]; cbn -[String.append PyStr.join extraction_query];
    [| now rewrite <- !List.app_assoc].
  destruct (duckdb_read_json _ _) as [e | table];
    cbn -[String.append PyStr.join extraction_query]; [now rewrite <- !List.app_assoc |].
  destruct (extraction_query table) as [rows | e];
    cbn -[String.append PyStr.join extraction_query]; [| now rewrite <- !List.app_assoc].
  destruct (duckdb_copy_to _ _ _) as [[e|] disk];
    cbn -[String.append PyStr.join extraction_query]; now rewrite <- !List.app_assoc.
Qed.

(** What the [except] and [finally] clauses add to the outcome of the
    body: the failure is logged, a file at the output path is removed,
    and the connection is closed if it was opened. *)
Lemma main_try_of_body (args : Namespace) (out : string) (w : World) :
  let closing := match duckdb_connect with None => [EvClose] | Some _ => [] end in
  main_try args out w =
  match main_try_body args out w with
  | (Ok r, wb) =>
      (Ok r, {| fs := fs wb; hub := hub wb; logs := logs wb;
                trace := trace wb ++ closing |})
  | (Raise (SystemExit code), wb) =>
      (Raise (SystemExit code),
       {| fs := fs wb; hub := hub wb; logs := logs wb; trace := trace wb ++ closing |})
  | (Raise (Exc e), wb) =>
      let failed := (ERROR, "DuckDB processing failed for batch " +:+
                            PyStr.of_Z (batch_num args) +:+
                            " (extracting inner URLs): " +:+ str_of_exception e) in
      match fs wb !! out with
      | Some _ =>
          (Raise (Exc e),
           {| fs := delete out (fs wb); hub := hub wb; logs := logs wb ++ [failed];
              trace := trace wb ++ EvRemove out :: closing |})
      | None =>
          (Raise (Exc e),
           {| fs := fs wb; hub := hub wb; logs := logs wb ++ [failed];
              trace := trace wb ++ closing |})
      end
  end.
Proof.
  intros closing. subst closing.
  unfold main_try, main_finally, try_finally, try_except.
  destruct (main_try_body args out w) as [[r | [e | code]] wb].
  - destruct duckdb_connect; unfold emit, ret; destruct wb; simpl;
      now rewrite ?List.app_nil_r.
  - unfold main_except, os_path_exists, os_remove, bind, emit, get_world, set_fs, raise, ret,
      logger_error, logger_log. cbn -[String.append].
    destruct (fs wb !! out) as [c|] eqn:Hout.
    + rewrite bool_decide_eq_true_2 by eauto. cbn -[String.append]. rewrite Hout.
      cbn -[String.append].
      destruct duckdb_connect; cbn -[String.append];
        now rewrite <- ?List.app_assoc, ?List.app_nil_r.
    + rewrite bool_decide_eq_false_2 by (intros [c Hc]; discriminate).
      cbn -[String.append].
      destruct duckdb_connect; cbn -[String.append]; now rewrite ?List.app_nil_r.
  - destruct duckdb_connect; unfold emit, ret; destruct wb; simpl;
      now rewrite ?List.app_nil_r.
Qed.

(** The body calls [duckdb.connect()] first, then only reads the manifest
    and calls the engine; it leaves the hub alone; when it raises it has
    logged nothing and the error is an [Exception]; and when
    [duckdb.connect()] raises it does nothing more. *)
Lemma main_try_body_effects (args : Namespace) (out : string) (w : World) :
  hub (snd (main_try_body args out w)) = hub w
  /\ (exists evs,
        trace (snd (main_try_body args out w)) = trace w ++ EvConnect :: evs
        /\ Forall (fun ev => session_event ev = false /\ hub_event ev = false) evs)
  /\ (forall be, fst (main_try_body args out w) = Raise be ->
        logs (snd (main_try_body args out w)) = logs w /\ exists e, be = Exc e)
  /\ (forall e, duckdb_connect = Some e ->
        main_try_body args out w
        = (Raise (Exc e), {| fs := fs w; hub := hub w; logs := logs w;
                             trace := trace w ++ [EvConnect] |})).
Proof.
  rewrite main_try_body_outcome. cbv zeta.
  destruct duckdb_connect as [e|].
  { split; [reflexivity |]. split; [exists []; split; [reflexivity | constructor] |].
    split; [intros be [= <-]; eauto | now intros e' [= <-]]. }
  destruct (duckdb_create_function _ _) as [e|].
  { split; [reflexivity |]. split; [exists []; split; [reflexivity | constructor] |].
    split; [intros be [= <-]; eauto | discriminate]. }
  destruct (pd_read_csv _ _) as [e | df].
  { split; [reflexivity |]. split; [eexists; split; [reflexivity | repeat constructor] |].
    split; [intros be [= <-]; eauto | discriminate]. }
  destruct (duckdb_fetch_column df) as [e | cells].
  { split; [reflexivity |]. split; [eexists; split; [reflexivity | repeat constructor] |].
    split; [intros be [= <-]; eauto | discriminate]. }
  destruct (str_items_outcome cells) as [(paths & _ & ->) | (msg & -> & _)].
  2:{ split; [reflexivity |]. split; [eexists; split; [reflexivity | repeat constructor] |].
      split; [intros be [= <-]; eauto | discriminate]. }
  destruct (duckdb_read_json _ _) as [e | table].
  { split; [reflexivity |]. split; [eexists; split; [reflexivity | repeat constructor] |].
    split; [intros be [= <-]; eauto | discriminate]. }
  destruct (extraction_query table) as [rows | e] eqn:Hq.
  2:{ split; [reflexivity |]. split; [eexists; split; [reflexivity | repeat constructor] |].
      split; [| discriminate].
      intros be [= <-]. split; [reflexivity | now apply (extraction_query_raises table)]. }
  destruct (duckdb_copy_to _ _ _) as [[e|] disk].
  - split; [reflexivity |]. split; [eexists; split; [reflexivity | repeat constructor] |].
    split; [intros be [= <-]; eauto | discriminate].
  - split; [reflexivity |]. split; [eexists; split; [reflexivity | repeat constructor] |].
    split; [intros be [=] | discriminate].
Qed.

End Processing.

(** X8: in the [try] statement of [main], with any behaviour of the
    libraries: when [duckdb.connect()] returns, the connection is closed
    as the last call, on every path, and is neither opened nor closed in
    between; when [duckdb.connect()] raises, that error is re-raised and
    the connection is never closed. *)
Theorem main_try_closes_connection (L : Libs) (args : Namespace) (out : string) (w : World) :
  exists mid,
    Forall (fun ev => session_event ev = false) mid
    /\ (duckdb_connect = None ->
        trace (snd (main_try args out w)) = trace w ++ EvConnect :: mid ++ [EvClose])
    /\ (forall e, duckdb_connect = Some e ->
        trace (snd (main_try args out w)) = trace w ++ EvConnect :: mid
        /\ fst (main_try args out w) = Raise (Exc e)).
Proof.
  destruct (main_try_body_effects args out w) as (_ & (evs & Htrace & Hevs) & _ & Hfail).
  assert (Hmid : Forall (fun ev => session_event ev = false) evs)
    by (eapply Forall_impl; [exact Hevs | now intros ev [H _]]).
  rewrite main_try_of_body. cbv zeta.
  destruct duckdb_connect as [e0|].
  - rewrite (Hfail e0 eq_refl). cbn [fs trace].
    destruct (fs w !! out).
    + exists [EvRemove out]. split; [repeat constructor |]. split; [discriminate |].
      intros e [= <-]. cbn [fst snd trace]. now rewrite <- List.app_assoc.
    + exists []. split; [constructor |]. split; [discriminate |].
      intros e [= <-]. cbn [fst snd trace]. now rewrite List.app_nil_r.
  - destruct (main_try_body args out w) as [[r | [e | code]] wb]; simpl in Htrace.
    + exists evs. split; [exact Hmid |]. split; [| discriminate].
      intros _. simpl. now rewrite Htrace, <- List.app_assoc.
    + destruct (fs wb !! out).
      * exists (evs ++ [EvRemove out]).
        split; [apply Forall_app; split; [exact Hmid | repeat constructor] |].
        split; [| discriminate]. intros _. simpl.
        rewrite Htrace, <- !List.app_assoc. reflexivity.
      * exists evs. split; [exact Hmid |]. split; [| discriminate].
        intros _. simpl. now rewrite Htrace, <- List.app_assoc.
    + exists evs. split; [exact Hmid |]. split; [| discriminate].
      intros _. simpl. now rewrite Htrace, <- List.app_assoc.
Qed.

Lemma main_try_closes_connection_witness :
  exists mid,
    Forall (fun ev => session_event ev = false) mid
    /\ trace (snd (main_try (L := Cases.libs_no_connection) Scenario.args
                     Scenario.output_parquet_file Scenario.world)) = EvConnect :: mid
    /\ fst (main_try (L := Cases.libs_no_connection) Scenario.args
              Scenario.output_parquet_file Scenario.world)
       = Raise (Exc (LibraryError "duckdb" "IO Error: cannot open database")).
Proof.
  destruct (main_try_closes_connection Cases.libs_no_connection Scenario.args
              Scenario.output_parquet_file Scenario.world) as (mid & Hmid & _ & Hfail).
  exists mid. split; [exact Hmid |].
  apply (Hfail (LibraryError "duckdb" "IO Error: cannot open database")).
  reflexivity.
Defined.

(** X9: the [try] statement of [main] never touches the remote hub: the
    hub is as it was, and no call to [create_repo] or [upload_file] is
    made, whether the processing succeeds or fails. *)
Theorem main_try_keeps_hub (L : Libs) (args : Namespace) (out : string) (w : World) :
  hub (snd (main_try args out w)) = hub w
  /\ exists evs,
       trace (snd (main_try args out w)) = trace w ++ evs
       /\ Forall (fun ev => hub_event ev = false) evs.
Proof.
  destruct (main_try_body_effects args out w) as (Hhub & (evs & Htrace & Hevs) & _).
  assert (Hmid : Forall (fun ev => hub_event ev = false) evs)
    by (eapply Forall_impl; [exact Hevs | now intros ev [_ H]]).
  assert (Hclosing : Forall (fun ev => hub_event ev = false)
                       match duckdb_connect with None => [EvClose] | Some _ => [] end)
    by (destruct duckdb_connect; repeat constructor).
  rewrite main_try_of_body. cbv zeta.
  destruct (main_try_body args out w) as [[r | [e | code]] wb]; simpl in Htrace, Hhub.
  - split; [exact Hhub |]. eexists. simpl. rewrite Htrace, <- List.app_assoc.
    split; [reflexivity |].
    constructor; [reflexivity |]. apply Forall_app. split; [exact Hmid | exact Hclosing].
  - destruct (fs wb !! out).
    + split; [exact Hhub |]. eexists. simpl. rewrite Htrace, <- List.app_assoc.
      split; [reflexivity |].
      constructor; [reflexivity |]. apply Forall_app. split; [exact Hmid |].
      constructor; [reflexivity | exact Hclosing].
    + split; [exact Hhub |]. eexists. simpl. rewrite Htrace, <- List.app_assoc.
      split; [reflexivity |].
      constructor; [reflexivity |]. apply Forall_app. split; [exact Hmid | exact Hclosing].
  - split; [exact Hhub |]. eexists. simpl. rewrite Htrace, <- List.app_assoc.
    split; [reflexivity |].
    constructor; [reflexivity |]. apply Forall_app. split; [exact Hmid | exact Hclosing].
Qed.

(** X10: when the [try] statement of [main] raises, the error is an
    [Exception] and the run has logged exactly one record: the failure, at
    level [ERROR], with the batch number and the text of the error. *)
Theorem main_try_failure_logged (L : Libs) (args : Namespace) (out : string) (w : World)
    (be : BaseException) :
  fst (main_try args out w) = Raise be ->
  exists e,
    be = Exc e
    /\ logs (snd (main_try args out w))
       = logs w ++ [(ERROR, "DuckDB processing failed for batch " +:+
                            PyStr.of_Z (batch_num args) +:+
                            " (extracting inner URLs): " +:+ str_of_exception e)].
Proof.
  destruct (main_try_body_effects args out w) as (_ & _ & Hraise & _).
  rewrite main_try_of_body. cbv zeta.
  destruct (main_try_body args out w) as [[r | [e | code]] wb]; simpl in Hraise.
  - discriminate.
  - destruct (Hraise _ eq_refl) as [Hlogs _].
    destruct (fs wb !! out); simpl; intros [= <-]; exists e; now rewrite Hlogs.
  - destruct (Hraise _ eq_refl) as [_ [e He]]. discriminate He.
Qed.

Lemma main_try_failure_logged_witness :
  logs (snd (main_try (L := Ref.libs) Scenario.args Scenario.output_parquet_file
               Scenario.world_missing_input))
  = [(ERROR, "DuckDB processing failed for batch 7 (extracting inner URLs): " +:+
             "IO Error: No files found that match the pattern /data/b.json.gz")].
Proof.
  destruct (main_try_failure_logged Ref.libs Scenario.args Scenario.output_parquet_file
              Scenario.world_missing_input
              (Exc (LibraryError "duckdb"
                      "IO Error: No files found that match the pattern /data/b.json.gz"))
              ltac:(vm_compute; reflexivity)) as (e & He & ->).
  injection He as <-. reflexivity.
Defined.

(** X19: when [con.create_function] raises (lines 87-89), the [try]
    statement re-raises that error before the manifest is read: the
    failure is logged, nothing follows but the removal of a file at the
    output path and the closing of the connection, the hub is untouched
    and no file remains at the output path. *)
Theorem main_try_create_function_fails (L : Libs) (args : Namespace) (out : string)
    (w : World) (e : Exception) :
  duckdb_connect = None ->
  duckdb_create_function "extract_domain" "SCALAR" = Some e ->
  exists w' mid,
    main_try args out w = (Raise (Exc e), w')
    /\ trace w' = trace w ++ EvConnect :: mid ++ [EvClose]
    /\ Forall (fun ev => ev = EvRemove out) mid
    /\ fs w' !! out = None
    /\ hub w' = hub w
    /\ logs w' = logs w ++
         [(ERROR, "DuckDB processing failed for batch " +:+ PyStr.of_Z (batch_num args) +:+
                  " (extracting inner URLs): " +:+ str_of_exception e)].
Proof.
  intros Hconnect Hcreate.
  rewrite main_try_of_body, main_try_body_outcome, Hconnect, Hcreate. cbv zeta. cbn [fs].
  destruct (fs w !! out) as [c|] eqn:Hout.
  - eexists _, [EvRemove out]. split; [reflexivity |]. cbn [fs hub logs trace].
    rewrite <- List.app_assoc.
    repeat split; [repeat constructor | apply lookup_delete_eq].
  - eexists _, []. split; [reflexivity |]. cbn [fs hub logs trace].
    rewrite <- List.app_assoc.
    repeat split; [constructor | exact Hout].
Qed.

Lemma main_try_create_function_fails_witness :
  fst (main_try (L := Cases.libs_udf_type_rejected) Scenario.args
         Scenario.output_parquet_file Scenario.world)
  = Raise (Exc (LibraryError "duckdb"
                  "Invalid Input Error: 'SCALAR' is not a recognized type for 'udf_type'")).
Proof.
  destruct (main_try_create_function_fails Cases.libs_udf_type_rejected Scenario.args
              Scenario.output_parquet_file Scenario.world
              (LibraryError "duckdb"
                 "Invalid Input Error: 'SCALAR' is not a recognized type for 'udf_type'")
              ltac:(reflexivity) ltac:(vm_compute; reflexivity))
    as (w' & mid & -> & _).
  reflexivity.
Defined.

(** ** The rows of the query *)

Section Rows.

Context {L : Libs}.

Lemma select_url_domain_app (urls1 urls2 : list (option string))
    (rows1 rows2 : list ExtractedRow) :
  select_url_domain urls1 = Ok rows1 ->
  select_url_domain urls2 = Ok rows2 ->
  select_url_domain (urls1 ++ urls2) = Ok (rows1 ++ rows2).
Proof.
  revert rows1. induction urls1 as [|u urls1 IH]; intros rows1 H1 H2.
  - cbn [select_url_domain] in H1. injection H1 as <-. exact H2.
  - change ((u :: urls1) ++ urls2) with (u :: (urls1 ++ urls2)).
    cbn [select_url_domain] in H1 |- *.
    destruct u as [v|]; destruct (extract_domain_udf _) as [[d|] | e];
      try discriminate;
      (destruct (select_url_domain urls1) as [rest|]; [| discriminate]);
      injection H1 as <-; now rewrite (IH rest eq_refl H2).
Qed.

(** One [url] on which the function returns [None] aborts the whole
    selection. *)
Lemma select_url_domain_unresolved (urls : list (option string)) (v : string) :
  In (Some v) urls ->
  extract_domain_udf (Some v) = Ok None ->
  exists e, select_url_domain urls = Raise (Exc e).
Proof.
  intros Hin Hnone. induction urls as [|u urls IH]; [contradiction |].
  cbn [select_url_domain].
  destruct (List.in_inv Hin) as [-> | Hrest].
  - rewrite Hnone. eauto.
  - destruct (IH Hrest) as [e He]. rewrite He.
    destruct u as [u|].
    + destruct (extract_domain_udf_returns (Some u)) as [[d|] ->]; eauto.
    + destruct (extract_domain_udf_returns None) as [d ->]. eauto.
Qed.

End Rows.

(** X15: the query works record by record and keeps the order: the result
    set for the records of two files read one after the other is the
    result set of the first followed by the result set of the second. *)
Theorem extraction_query_app (L : Libs) (table1 table2 : list JSONRecord)
    (rows1 rows2 : list ExtractedRow) :
  extraction_query table1 = Ok rows1 ->
  extraction_query table2 = Ok rows2 ->
  extraction_query (table1 ++ table2) = Ok (rows1 ++ rows2).
Proof.
  unfold extraction_query. intros H1 H2.
  destruct (binds_metadata_url table1) eqn:B1; [| discriminate].
  destruct (binds_metadata_url table2) eqn:B2; [| discriminate].
  unfold binds_metadata_url in *. rewrite List.existsb_app, B1. cbn [orb].
  rewrite List.map_app, List.filter_app. now apply select_url_domain_app.
Qed.

Lemma extraction_query_app_witness :
  extraction_query (L := Ref.libs)
    ([{| metadata := Some {| url := Some "https://sub.example.co.uk/page" |} |}] ++
     [{| metadata := Some {| url := None |} |};
      {| metadata := Some {| url := Some "http://www.ck/" |} |}])
  = Ok ([(Some "https://sub.example.co.uk/page", Some "example.co.uk")] ++
        [(Some "http://www.ck/", Some "www.ck")]).
Proof.
  apply (extraction_query_app Ref.libs); vm_compute; reflexivity.
Defined.

(** X20: the function is registered without special null handling, so
    one record whose [url] does not resolve to a domain aborts the whole
    query: no result set is returned for the batch. *)
Theorem extraction_query_aborts_on_unresolved (L : Libs) (table : list JSONRecord)
    (r : JSONRecord) (u : string) :
  In r table ->
  metadata_url r = Some u ->
  extract_domain_udf (Some u) = Ok None ->
  exists e, extraction_query table = Raise (Exc e).
Proof.
  intros Hin Hurl Hnone. unfold extraction_query.
  destruct (binds_metadata_url table); [| eauto].
  apply (select_url_domain_unresolved _ u); [| exact Hnone].
  apply List.filter_In. split; [| reflexivity].
  rewrite <- Hurl. now apply List.in_map.
Qed.

Lemma extraction_query_aborts_on_unresolved_witness :
  exists e,
    extraction_query (L := Ref.libs)
      [{| metadata := Some {| url := Some "https://sub.example.co.uk/page" |} |};
       {| metadata := Some {| url := Some "not a url" |} |}] = Raise (Exc e).
Proof.
  apply (extraction_query_aborts_on_unresolved Ref.libs _
           {| metadata := Some {| url := Some "not a url" |} |} "not a url").
  - right. left. reflexivity.
  - reflexivity.
  - vm_compute. reflexivity.
Defined.

(** X16: for a present URL, [extract_domain_udf] returns an absent domain
    exactly when the parsing library raises or its parse has an empty
    domain label or an empty suffix label. *)
Theorem extract_domain_udf_absent_iff (L : Libs) (u : string) :
  extract_domain_udf (Some u) = Ok None
  <-> ((exists e, tldextract_extract u = inl e)
       \/ (exists x, tldextract_extract u = inr x
                     /\ (tldextract.domain x = "" \/ tldextract.suffix x = ""))).
Proof.
  unfold extract_domain_udf. destruct (tldextract_extract u) as [e | x].
  - split; [intros _; left; eauto | reflexivity].
  - destruct (tldextract.domain x) as [|a d] eqn:Hd.
    + split; [intros _ | reflexivity]. right. exists x. split; [reflexivity | now left].
    + destruct (tldextract.suffix x) as [|b t] eqn:Hs.
      * split; [intros _ | reflexivity]. right. exists x. split; [reflexivity | now right].
      * simpl. split; [discriminate |].
        intros [[e He] | (x' & [= <-] & [H | H])]; [discriminate He | |]; congruence.
Qed.

Lemma extract_domain_udf_absent_iff_witness :
  extract_domain_udf (L := Cases.libs_extract_raising) (Some "https://example.com")
  = Ok None.
Proof.
  apply (proj2 (extract_domain_udf_absent_iff Cases.libs_extract_raising
                  "https://example.com")).
  left. exists (LibraryError "tldextract" "cannot parse"). reflexivity.
Defined.

(** ** The mirroring script *)

Section MirrorFacts.

Lemma split_two (c : ascii) (s : string) :
  PyStr.contains c s = true -> exists p q l, PyStr.split c s = p :: q :: l.
Proof.
  induction s as [|a r IH]; [discriminate |].
  simpl. destruct (Ascii.eqb a c) eqn:Ha; simpl.
  - intros _. destruct (PyStr.split c r) as [|q l] eqn:E; [| eauto].
    destruct r; simpl in E; [discriminate |].
    destruct (Ascii.eqb _ c); [discriminate |]. destruct (PyStr.split c r); discriminate.
  - intros Hr. destruct (IH Hr) as (p & q & l & ->). eauto.
Qed.

Lemma split_last (c : ascii) (s : string) :
  List.last (PyStr.split c s) "" = PyStr.after_last c s.
Proof.
  induction s as [|a r IH]; [reflexivity |].
  simpl. destruct (PyStr.contains c r) eqn:Hr.
  - destruct (split_two c r Hr) as (p & q & l & E). rewrite E in IH |- *.
    destruct (Ascii.eqb a c); exact IH.
  - rewrite (split_no_sep c r Hr). destruct (Ascii.eqb a c); reflexivity.
Qed.

End MirrorFacts.

(** X17: the value the mirroring script computes for [loc] is the part of
    the repository identifier after its last slash: it has no slash in it,
    and it is the whole identifier when the identifier has no slash. *)
Theorem loc_last_segment (repo_id : string) :
  Mirror.loc repo_id = PyStr.after_last "/" repo_id
  /\ PyStr.contains "/" (Mirror.loc repo_id) = false
  /\ (PyStr.contains "/" repo_id = false -> Mirror.loc repo_id = repo_id).
Proof.
  unfold Mirror.loc. rewrite split_last. split; [reflexivity |].
  split; [apply basename_no_slash | apply after_last_id].
Qed.

Lemma loc_last_segment_witness : Mirror.loc "the-pile" = "the-pile".
Proof. apply (proj2 (proj2 (loc_last_segment "the-pile"))). reflexivity. Defined.

Example loc_of_namespaced_repo : Mirror.loc "bigscience-data/the-pile" = "the-pile".
Proof. reflexivity. Qed.

(** ** The resolver, when it answers *)

Lemma length_append (s t : string) :
  String.length (s +:+ t) = (String.length s + String.length t)%nat.
Proof.
  induction s as [|a r IH]; [reflexivity |]. rewrite append_cons. simpl. now rewrite IH.
Qed.

(** X18: a domain that [extract_domain_udf] returns comes from a parse of
    the library with a non-empty domain label and a non-empty suffix
    label; it is the two joined by a dot, so it contains a dot and is
    longer than either label. *)
Theorem extract_domain_udf_present (L : Libs) (u d : string) :
  extract_domain_udf (Some u) = Ok (Some d) ->
  exists x,
    tldextract_extract u = inr x
    /\ tldextract.domain x <> ""
    /\ tldextract.suffix x <> ""
    /\ d = tldextract.domain x +:+ "." +:+ tldextract.suffix x
    /\ PyStr.contains "." d = true
    /\ String.length d
       = (String.length (tldextract.domain x) + 1 + String.length (tldextract.suffix x))%nat.
Proof.
  unfold extract_domain_udf. destruct (tldextract_extract u) as [e | x]; [discriminate |].
  destruct (tldextract.domain x) as [|a dom] eqn:Hd; [discriminate |].
  destruct (tldextract.suffix x) as [|b suf] eqn:Hs; [discriminate |].
  simpl. intros [= <-]. exists x. rewrite Hd, Hs.
  split; [reflexivity |]. split; [discriminate |]. split; [discriminate |].
  split; [reflexivity |]. split.
  - change (String a dom +:+ "." +:+ String b suf)
      with (String a dom +:+ String "." (String b suf)).
    rewrite contains_app. simpl. now rewrite orb_true_r.
  - rewrite !length_append. simpl. lia.
Qed.

Lemma extract_domain_udf_present_witness :
  exists x,
    tldextract_extract (Libs := Ref.libs) "https://sub.example.co.uk/page" = inr x
    /\ tldextract.domain x <> ""
    /\ tldextract.suffix x <> ""
    /\ "example.co.uk" = tldextract.domain x +:+ "." +:+ tldextract.suffix x
    /\ PyStr.contains "." "example.co.uk" = true
    /\ String.length "example.co.uk"
       = (String.length (tldextract.domain x) + 1 + String.length (tldextract.suffix x))%nat.
Proof.
  apply (extract_domain_udf_present Ref.libs "https://sub.example.co.uk/page"
           "example.co.uk").
  vm_compute. reflexivity.
Defined.
